(** * tssim: the generation engine

    A shallow embedding of the time-function dispatcher
    ([tssim/core/function.py] and its predecessor [tssim/functions.py]) and of
    the series aggregation ([tssim/series.py]), with the properties the
    specification states about them.

    Layout: Python values and exceptions ([Py]), the part of pandas the
    program calls ([Pandas]), one module per source file, then the theorems. *)

From stdpp Require Import base option list strings gmap pretty sorting.

Set Warnings "-register-all,-clear-no-such-hyp".

(** ** Python values, exceptions and callables *)

Module Py.

(** Exceptions, by class.  The payload is the message. *)
Inductive exn :=
| ValueError (msg : string)
| TypeError (msg : string)
| AttributeError (msg : string)
| IndexError (msg : string)
| KeyError (msg : string)
| StopIteration
| RuntimeError (msg : string)
| UserException (msg : string).

(** The outcome of evaluating an expression: a value or a raised exception. *)
Inductive result (A : Type) :=
| Ok (a : A)
| Raise (e : exn).
Arguments Ok {A} a.
Arguments Raise {A} e.

#[export] Instance result_ret : MRet result := @Ok.
#[export] Instance result_bind : MBind result := fun A B f r =>
  match r with
  | Ok a => f a
  | Raise e => Raise e
  end.
#[export] Instance result_fmap : FMap result := fun A B f r =>
  match r with
  | Ok a => Ok (f a)
  | Raise e => Raise e
  end.

(** Timestamps label the entries of a series; they are totally ordered. *)
Abbreviation label := Z (only parsing).

(** The values that flow through the engine.  A [PySeries] is a pandas
    Series: labelled entries, in order. *)
Inductive PyVal :=
| PyNone
| PyBool (b : bool)
| PyNum (z : Z)
| PyList (l : list PyVal)
| PySeries (s : list (label * PyVal)).

(** The code object of a function: [co_varnames] lists the names of the
    arguments first and of the other local variables after them. *)
Record Code := mkCode {
  co_argcount : nat;
  co_varnames : list string;
}.

(** An object as the dispatcher sees it: the attributes it reads and the
    three ways it calls it.  An attribute that the object does not have is
    [None]; [__defaults__] is [Some None] for a function without default
    values.  A chain of function generators is finite. *)
Inductive Callable := mkCallable {
  __name__ : string;
  is_BaseWrapper : bool;
  __defaults__ : option (option (list PyVal));
  __code__ : option Code;
  call0 : result Callable;
  call1 : PyVal → result PyVal;
  call_size : nat → result PyVal;
}.

(** [None], which is not callable and has none of the attributes. *)
Definition NoneType_not_callable : string := "'NoneType' object is not callable".
Definition None_obj : Callable :=
  {| __name__ := "None"; is_BaseWrapper := false;
     __defaults__ := None; __code__ := None;
     call0 := Raise (TypeError NoneType_not_callable);
     call1 := fun _ => Raise (TypeError NoneType_not_callable);
     call_size := fun _ => Raise (TypeError NoneType_not_callable) |}.

(** An attribute of an instance that was set to [None] or to an object. *)
Definition attr (o : option Callable) : Callable := default None_obj o.

(** [function.__defaults__] and [function.__code__]. *)
Definition getattr_defaults (function : Callable) : result (option (list PyVal)) :=
  match __defaults__ function with
  | Some d => Ok d
  | None => Raise (AttributeError "__defaults__")
  end.

Definition getattr_code (function : Callable) : result Code :=
  match __code__ function with
  | Some c => Ok c
  | None => Raise (AttributeError "__code__")
  end.

(** [len(t)] of a tuple or of [None]. *)
Definition len_defaults (d : option (list PyVal)) : result nat :=
  match d with
  | Some t => Ok (length t)
  | None => Raise (TypeError "object of type 'NoneType' has no len()")
  end.

(** The number of positional parameters a caller has to supply. *)
Definition required_positional (c : Code) (d : option (list PyVal)) : Z :=
  (Z.of_nat (co_argcount c) - Z.of_nat (default 0%nat (length <$> d)))%Z.

(** Truth value of an object, as [if] and [while] take it.  The truth value
    of a pandas Series is ambiguous. *)
Definition truthy (v : PyVal) : result bool :=
  match v with
  | PyNone => Ok false
  | PyBool b => Ok b
  | PyNum z => Ok (negb (z =? 0)%Z)
  | PyList l => Ok (match l with [] => false | _ :: _ => true end)
  | PySeries _ => Raise (ValueError "The truth value of a Series is ambiguous.")
  end.

(** [x.shape[0]]. *)
Definition shape0 (x : PyVal) : result nat :=
  match x with
  | PySeries s => Ok (length s)
  | _ => Raise (AttributeError "shape")
  end.

(** [next(iterator)] on the items an iterator has left. *)
Definition next {A} (iterator : list A) : result (A * list A) :=
  match iterator with
  | x :: rest => Ok (x, rest)
  | [] => Raise StopIteration
  end.

(** A generator that has run to its end: the values it yielded, and the
    exception that left its body, if one did. *)
Abbreviation Generator := (list PyVal * option exn)%type (only parsing).

Definition generator_raised_StopIteration : string :=
  "generator raised StopIteration".

(** [list(generator)].  A generator whose body returns gives the values it
    yielded.  A [StopIteration] that escapes the body is turned into a
    [RuntimeError] (PEP 479, the rule of Python 3.7 and later); any other
    exception passes through [list] as it is.  In both cases the values
    yielded before are lost. *)
Definition list_of_generator (g : Generator) : result (list PyVal) :=
  match g with
  | (values, None) => Ok values
  | (_, Some StopIteration) => Raise (RuntimeError generator_raised_StopIteration)
  | (_, Some e) => Raise e
  end.

End Py.

(** ** The part of pandas the program calls *)

Module Pandas.
Import Py.

(** A Series: labelled values, in order. *)
Abbreviation Series := (list (label * PyVal)) (only parsing).

Definition index (s : Series) : list label := s.*1.
Definition values (s : Series) : list PyVal := s.*2.

(** The value at a label (the first one, should the label repeat). *)
Fixpoint loc (s : Series) (t : label) : option PyVal :=
  match s with
  | [] => None
  | (t', v) :: rest => if bool_decide (t' = t) then Some v else loc rest t
  end.

(** [pd.Series(data, index)]: a list is labelled in order and must have the
    length of the index, a scalar is repeated for every label, a Series is
    re-indexed (NaN, here [PyNone], where it lacks a label). *)
Definition new_Series (data : PyVal) (idx : list label) : result Series :=
  match data with
  | PyList l =>
      if bool_decide (length l = length idx) then Ok (zip idx l)
      else Raise (ValueError "Length of passed values does not match length of index")
  | PySeries s => Ok ((fun t => (t, default PyNone (loc s t))) <$> idx)
  | scalar => Ok ((fun t => (t, scalar)) <$> idx)
  end.

(** [s[:n]]: the slice of the first [n] entries. *)
Definition slice_to (s : Series) (n : nat) : Series := take n s.

(** [s.apply(func)]: [func] on every value in turn, labels kept. *)
Fixpoint apply (s : Series) (func : PyVal → result PyVal) : result Series :=
  match s with
  | [] => Ok []
  | (t, x) :: rest =>
      y ← func x;
      ys ← apply rest func;
      Ok ((t, y) :: ys)
  end.

(** The entries a boolean mask selects. *)
Fixpoint keep {A} (mask : list bool) (s : list A) : list A :=
  match mask, s with
  | b :: mask', x :: s' => if b then x :: keep mask' s' else keep mask' s'
  | _, _ => []
  end.

Definition to_bool (v : PyVal) : option bool :=
  match v with
  | PyBool b => Some b
  | _ => None
  end.

(** [s[key]] for a boolean mask: a list of booleans of the length of [s], or
    a boolean Series with the index of [s].  Keys of other kinds are looked
    up by label in pandas; they are outside this model, which raises
    [KeyError] for them. *)
Definition getitem (s : Series) (key : PyVal) : result Series :=
  match key with
  | PyList l =>
      match mapM to_bool l with
      | Some mask =>
          if bool_decide (length mask = length s) then Ok (keep mask s)
          else Raise (ValueError "Item wrong length")
      | None => Raise (KeyError "key is not a boolean mask")
      end
  | PySeries m =>
      match mapM to_bool m.*2 with
      | Some mask =>
          if bool_decide (m.*1 = s.*1) then Ok (keep mask s)
          else Raise (IndexError "Unalignable boolean Series provided as indexer")
      | None => Raise (KeyError "key is not a boolean mask")
      end
  | _ => Raise (KeyError "key is not a boolean mask")
  end.

(** The union of indexes, in increasing order and without repetition. *)
Fixpoint insert_label (t : label) (idx : list label) : list label :=
  match idx with
  | [] => [t]
  | x :: rest =>
      if (t <? x)%Z then t :: idx
      else if (t =? x)%Z then idx
      else x :: insert_label t rest
  end.

Definition union_indexes (indexes : list (list label)) : list label :=
  foldr insert_label [] (concat indexes).

(** A DataFrame, row by row: the label of the row and one cell per column,
    [None] where the column has no value for the label. *)
Abbreviation DataFrame := (list (label * list (option PyVal))) (only parsing).

(** [pd.concat(objs, axis=1)]: one column per Series, rows aligned on the
    labels.  Indexes that are all the same are taken as they are, entry by
    entry; otherwise the rows are the union of the indexes, which needs
    every index free of repeated labels. *)
Definition concat_axis1 (objs : list Series) : result DataFrame :=
  match objs with
  | [] => Raise (ValueError "No objects to concatenate")
  | first :: _ =>
      if bool_decide (Forall (fun s => index s = index first) objs) then
        Ok (imap (fun i t => (t, (fun s : Series => values s !! i) <$> objs)) (index first))
      else if bool_decide (Forall (fun s => NoDup (index s)) objs) then
        Ok ((fun t => (t, (fun s => loc s t) <$> objs)) <$> union_indexes (index <$> objs))
      else Raise (ValueError "cannot reindex on an axis with duplicate labels")
  end.

(** The number a cell adds to a sum: nothing when the cell is empty or
    NaN. *)
Definition cell_number (c : option PyVal) : result Z :=
  match c with
  | None | Some PyNone => Ok 0%Z
  | Some (PyNum z) => Ok z
  | Some (PyBool b) => Ok (Z.b2z b)
  | Some _ => Raise (TypeError "unsupported operand type(s) for +")
  end.

Fixpoint sum_cells (row : list (option PyVal)) : result Z :=
  match row with
  | [] => Ok 0%Z
  | c :: rest =>
      z ← cell_number c;
      total ← sum_cells rest;
      Ok (z + total)%Z
  end.

(** [df.sum(axis=1)]: the sum of every row, under the label of the row. *)
Fixpoint sum_axis1 (df : DataFrame) : result Series :=
  match df with
  | [] => Ok []
  | (t, row) :: rest =>
      total ← sum_cells row;
      totals ← sum_axis1 rest;
      Ok ((t, PyNum total) :: totals)
  end.

End Pandas.

(** ** tssim/core/function.py *)

Module core_function.
Import Py Pandas.

Record TimeFunction := mkTimeFunction {
  vectorized : option Callable;
  iterated : option Callable;
  condition : option Callable;
}.

(** Truth value of an attribute that holds [None] or a function object. *)
Definition truth (o : option Callable) : bool :=
  match o with
  | Some _ => true
  | None => false
  end.

Definition msg_no_function : string :=
  "At least one function / function generator needsto be provided for 'vectorized' or 'iterated'".

(** [TimeFunction.__init__] *)
Definition __init__ (vectorized iterated condition : option Callable)
  : result TimeFunction :=
  if negb (truth vectorized || truth iterated) then
    Raise (ValueError msg_no_function)
  else
    Ok (mkTimeFunction vectorized iterated condition).

Definition msg_arguments (karg_count : Z) : string :=
  "Function passed to TimeFunction needs to have 0 arguments for a function generator or 1 arugment for a constant function. Passed function has "
  +:+ pretty karg_count +:+ " arguments.".

(** [lambda x: function(size=x.shape[0])] *)
Definition size_lambda (function : Callable) : Callable :=
  {| __name__ := "<lambda>"; is_BaseWrapper := false;
     __defaults__ := Some None;
     __code__ := Some (mkCode 1 ["x"]);
     call0 := Raise (TypeError "<lambda>() missing 1 required positional argument: 'x'");
     call1 := fun x => n ← shape0 x; call_size function n;
     call_size := fun _ => Raise (TypeError "<lambda>() got an unexpected keyword argument 'size'") |}.

(** The body of the outer [try] of [_evaluate_function]: the names of the
    local variables and [karg_count]. *)
Definition count_kargs (function : Callable) : result (list string * Z) :=
  d ← getattr_defaults function;
  let kwargs_count :=
    match len_defaults d with
    | Ok n => n
    | Raise _ => 0%nat
    end in
  code ← getattr_code function;
  let arg_names := co_varnames code in
  Ok (arg_names, (Z.of_nat (length arg_names) - Z.of_nat kwargs_count)%Z).

(** [TimeFunction._evaluate_function].  The first component lists, in order,
    the objects the adaptation has called without arguments. *)
Fixpoint _evaluate_function (function : Callable) : list string * result Callable :=
  match function with
  | mkCallable name wrapper _ _ function_called _ _ =>
      if wrapper then ([name], function_called)
      else
        match count_kargs function with
        | Raise (AttributeError _) => ([], Ok function)
        | Raise e => ([], Raise e)
        | Ok (arg_names, karg_count) =>
            if (1 <? karg_count)%Z then
              ([], Raise (ValueError (msg_arguments karg_count)))
            else if (karg_count =? 0)%Z && bool_decide ("size" ∈ arg_names) then
              ([], Ok (size_lambda function))
            else if (karg_count =? 1)%Z then
              ([], Ok function)
            else
              match function_called with
              | Ok generated =>
                  let '(calls, adapted) := _evaluate_function generated in
                  (name :: calls, adapted)
              | Raise e => ([name], Raise e)
              end
        end
  end.

(** The generator [yield_values] of [_generate_iterated], from the [while]
    on: [iterator] holds the time units not yet taken. *)
Fixpoint while_condition (time_func condition : Callable) (current_val : PyVal)
    (iterator : list PyVal) : Generator :=
  match call1 condition current_val ≫= truthy with
  | Raise e => ([], Some e)
  | Ok false => ([], None)
  | Ok true =>
      let rest :=
        match iterator with
        | [] => ([], Some StopIteration)
        | t :: iterator' =>
            match call1 time_func t with
            | Raise e => ([], Some e)
            | Ok next_val => while_condition time_func condition next_val iterator'
            end
        end in
      (current_val :: rest.1, rest.2)
  end.

Definition yield_values (time_func condition : Callable) (time_units : Series)
  : Generator :=
  match next (values time_units) with
  | Raise e => ([], Some e)
  | Ok (t, iterator) =>
      match call1 time_func t with
      | Raise e => ([], Some e)
      | Ok current_val => while_condition time_func condition current_val iterator
      end
  end.

(** Lines 101-102 of [_generate_vectorized]: values that are not a Series
    are made one, under the labels of the time units. *)
Definition label_values (time_values : PyVal) (time_units : Series)
  : result Series :=
  match time_values with
  | PySeries s => Ok s
  | _ => new_Series time_values (index time_units)
  end.

(** [TimeFunction._generate_vectorized] *)
Definition _generate_vectorized (self : TimeFunction) (time_units : Series)
  : result Series :=
  time_func ← (_evaluate_function (attr (vectorized self))).2;
  time_values ← call1 time_func (PySeries time_units);
  time_values ← label_values time_values time_units;
  match condition self with
  | Some c =>
      mask ← call1 c (PySeries time_values);
      getitem time_values mask
  | None => Ok time_values
  end.

(** [TimeFunction._generate_iterated] *)
Definition _generate_iterated (self : TimeFunction) (time_units : Series)
  : result Series :=
  time_func ← (_evaluate_function (attr (iterated self))).2;
  match condition self with
  | Some c =>
      values ← list_of_generator (yield_values time_func c time_units);
      let index := index (slice_to time_units (length values)) in
      new_Series (PyList values) index
  | None => apply time_units (call1 time_func)
  end.

(** [TimeFunction.generate] *)
Definition generate (self : TimeFunction) (time_units : Series) : result Series :=
  let after_condition :=
    if truth (vectorized self) then _generate_vectorized self time_units
    else _generate_iterated self time_units in
  if truth (condition self) then
    if truth (iterated self) then _generate_iterated self time_units
    else after_condition
  else after_condition.

End core_function.

(** ** tssim/functions.py

    The earlier form of the class: the supplied objects are always function
    generators, called without arguments, and the values of the vectorized
    function are taken as they come. *)

Module functions_py.
Import Py Pandas.

Record TimeFunction := mkTimeFunction {
  vectorized : option Callable;
  iterated : option Callable;
  condition : option Callable;
}.

Definition truth (o : option Callable) : bool :=
  match o with
  | Some _ => true
  | None => false
  end.

(** [TimeFunction.__init__] *)
Definition __init__ (vectorized iterated condition : option Callable)
  : result TimeFunction :=
  if negb (truth vectorized || truth iterated) then
    Raise (ValueError "Must provide function")
  else
    Ok (mkTimeFunction vectorized iterated condition).

(** [l[i]] on a list, an index below zero counting from the end. *)
Definition list_item (l : list PyVal) (i : Z) : result PyVal :=
  let n := Z.of_nat (length l) in
  let pos := if (i <? 0)%Z then (i + n)%Z else i in
  if (0 <=? pos)%Z && (pos <? n)%Z then
    match l !! Z.to_nat pos with
    | Some v => Ok v
    | None => Raise (IndexError "list index out of range")
    end
  else Raise (IndexError "list index out of range").

(** [container[key]] *)
Definition subscript (container key : PyVal) : result PyVal :=
  match container with
  | PySeries s => PySeries <$> getitem s key
  | PyList l =>
      match key with
      | PyNum i => list_item l i
      | PyBool b => list_item l (Z.b2z b)
      | _ => Raise (TypeError "list indices must be integers or slices")
      end
  | _ => Raise (TypeError "object is not subscriptable")
  end.

(** [TimeFunction._generate_vectorized] *)
Definition _generate_vectorized (self : TimeFunction) (time_units : Series)
  : result PyVal :=
  time_func ← call0 (attr (vectorized self));
  time_values ← call1 time_func (PySeries time_units);
  match condition self with
  | Some c =>
      mask ← call1 c time_values;
      subscript time_values mask
  | None => Ok time_values
  end.

(** [TimeFunction._generate_iterated]; its generator [yield_values] has the
    lines of the one in core/function.py. *)
Definition _generate_iterated (self : TimeFunction) (time_units : Series)
  : result PyVal :=
  time_func ← call0 (attr (iterated self));
  match condition self with
  | Some c =>
      values ← list_of_generator (core_function.yield_values time_func c time_units);
      let index := index (slice_to time_units (length values)) in
      PySeries <$> new_Series (PyList values) index
  | None => PySeries <$> apply time_units (call1 time_func)
  end.

(** [TimeFunction.generate] *)
Definition generate (self : TimeFunction) (time_units : Series) : result PyVal :=
  let after_condition :=
    if truth (vectorized self) then _generate_vectorized self time_units
    else _generate_iterated self time_units in
  if truth (condition self) then
    if truth (iterated self) then _generate_iterated self time_units
    else after_condition
  else after_condition.

End functions_py.

(** ** tssim/series.py *)

Module series.
Import Py Pandas.

Section TimeSeries.

(** The module [tracks] is not among the sources.  What [TimeSeries] needs
    of it is taken as given: the class [TimeTrack], the arguments of its
    constructor, its method [generate] and the attribute [values] of what
    that method returns. *)
Variable TimeTrack : Type.
Variable TrackArgs : Type.
Variable TrackResult : Type.

Record TimeSeries := mkTimeSeries {
  ts_index : list label;
  unit : string;
  tracks : gmap string TimeTrack;
}.

Variable TimeTrack_init : TimeSeries → TrackArgs → result TimeTrack.
Variable TimeTrack_generate : TimeTrack → result TrackResult.
Variable TrackResult_values : TrackResult → Series.

Record TimeSeriesResult := mkTimeSeriesResult {
  res_tracks : gmap string TrackResult;
  res_values : Series;
}.

(** [TimeSeries.__init__], the index as [pd.DatetimeIndex] built it. *)
Definition __init__ (index : list label) (unit : string) : TimeSeries :=
  mkTimeSeries index unit ∅.

Definition msg_already_given : string :=
  "TimeTrack with name '{}' is already given.".

(** [TimeSeries.add]: what the call raises or returns, and the object
    after it. *)
Definition add (self : TimeSeries) (name : string) (args : TrackArgs)
  : result () * TimeSeries :=
  if bool_decide (is_Some (tracks self !! name)) then
    (Raise (ValueError msg_already_given), self)
  else
    match TimeTrack_init self args with
    | Raise e => (Raise e, self)
    | Ok track =>
        (Ok (), mkTimeSeries (ts_index self) (unit self) (<[name:=track]> (tracks self)))
    end.

(** [{name: track.generate() for name, track in items}] *)
Fixpoint generate_items (items : list (string * TimeTrack))
  : result (list (string * TrackResult)) :=
  match items with
  | [] => Ok []
  | (name, track) :: rest =>
      r ← TimeTrack_generate track;
      rs ← generate_items rest;
      Ok ((name, r) :: rs)
  end.

(** [TimeSeries.generate] *)
Definition generate (self : TimeSeries) : result TimeSeriesResult :=
  items ← generate_items (map_to_list (tracks self));
  let tracks : gmap string TrackResult := list_to_map items in
  let track_values := TrackResult_values <$> (map_to_list tracks).*2 in
  df ← concat_axis1 track_values;
  time_series_values ← sum_axis1 df;
  Ok (mkTimeSeriesResult tracks time_series_values).

(** [TimeSeries.__getitem__] *)
Definition __getitem__ (self : TimeSeries) (item : string) : result TimeTrack :=
  match tracks self !! item with
  | Some track => Ok track
  | None => Raise (KeyError item)
  end.

End TimeSeries.

Arguments mkTimeSeries {TimeTrack} ts_index unit tracks.
Arguments ts_index {TimeTrack} t.
Arguments unit {TimeTrack} t.
Arguments tracks {TimeTrack} t.
Arguments mkTimeSeriesResult {TrackResult} res_tracks res_values.
Arguments res_tracks {TrackResult} t.
Arguments res_values {TrackResult} t.
Arguments __init__ {TimeTrack} index unit.
Arguments add {TimeTrack TrackArgs} TimeTrack_init self name args.
Arguments generate_items {TimeTrack TrackResult} TimeTrack_generate items.
Arguments generate {TimeTrack TrackResult} TimeTrack_generate TrackResult_values self.
Arguments __getitem__ {TimeTrack} self item.

End series.

(** ** The specification's wording *)

Module spec.
Import Py Pandas.

(** The two evaluation strategies of a Time Function (section 4.2). *)
Inductive Strategy :=
| Iterated
| Vectorized.

Definition is_set (o : option Callable) : bool := bool_decide (is_Some o).

(** The selection rule, in its fixed priority order: condition and iterated
    set, else vectorized set, else the fallback. *)
Definition select_strategy (condition iterated vectorized : option Callable)
  : Strategy :=
  if is_set condition && is_set iterated then Iterated
  else if is_set vectorized then Vectorized
  else Iterated.

(** The number of leading time points whose value passes the condition. *)
Fixpoint passing_prefix (passes : PyVal → bool) (time_points : list PyVal) : nat :=
  match time_points with
  | [] => 0
  | t :: rest => if passes t then S (passing_prefix passes rest) else 0
  end.

(** [out] is the longest prefix of [time_points] on which the values [F]
    gives all pass [C]: it stops at the first value that fails, which it
    leaves out, or at the end of the sequence. *)
Definition longest_passing_prefix (F : PyVal → PyVal) (C : PyVal → bool)
    (time_points out : Series) : Prop :=
  ∃ k : nat,
    (k ≤ length time_points)%nat
    ∧ (∀ i t, (i < k)%nat → values time_points !! i = Some t → C (F t) = true)
    ∧ (k = length time_points
       ∨ ∃ t, values time_points !! k = Some t ∧ C (F t) = false)
    ∧ index out = take k (index time_points)
    ∧ values out = F <$> take k (values time_points).

(** What a track adds to the aggregate at a timestamp: its value there, and
    zero where it has none. *)
Definition contribution (s : Series) (t : label) : Z :=
  match loc s t with
  | Some (PyNum z) => z
  | _ => 0%Z
  end.

(** The element-wise sum of the tracks at a timestamp. *)
Definition total (tracks : list Series) (t : label) : Z :=
  foldr (fun s acc => (contribution s t + acc)%Z) 0%Z tracks.

(** A series of numbers. *)
Definition numeric (s : Series) : Prop :=
  Forall (fun e : label * PyVal => ∃ z, e.2 = PyNum z) s.

End spec.

(** ** Objects the examples use *)

Module examples.
Import Py Pandas.

(** A function object written with [def] or [lambda]. *)
Definition function (name : string) (argcount : nat) (varnames : list string)
    (defaults : option (list PyVal)) (called : result Callable)
    (body : PyVal → result PyVal) : Callable :=
  {| __name__ := name; is_BaseWrapper := false;
     __defaults__ := Some defaults;
     __code__ := Some (mkCode argcount varnames);
     call0 := called;
     call1 := body;
     call_size := fun _ => Raise (TypeError "got an unexpected keyword argument 'size'") |}.

Definition missing_argument : exn :=
  TypeError "missing 1 required positional argument".
Definition too_many_arguments : exn :=
  TypeError "takes 0 positional arguments but 1 was given".

(** [def step(x): return x] *)
Definition step : Callable :=
  function "step" 1 ["x"] None (Raise missing_argument) (fun x => Ok x).

(** [def gen():
       def step(x): return x
       return step]
    The nested [def] makes [step] a local variable of [gen]. *)
Definition gen : Callable :=
  function "gen" 0 ["step"] None (Ok step) (fun _ => Raise too_many_arguments).

(** [lambda: step] *)
Definition make_step : Callable :=
  function "<lambda>" 0 [] None (Ok step) (fun _ => Raise too_many_arguments).

(** [def add(a, b): return a + b] *)
Definition add2 : Callable :=
  function "add" 2 ["a"; "b"] None (Raise missing_argument)
    (fun _ => Raise missing_argument).

(** [lambda v: v < 3] and [lambda v: v > 0], on a number or, element by
    element, on a Series. *)
Definition compare (holds : Z → bool) (v : PyVal) : bool :=
  match v with
  | PyNum z => holds z
  | _ => false
  end.

Definition comparison (holds : Z → bool) : Callable :=
  function "<lambda>" 1 ["v"] None (Raise missing_argument)
    (fun v =>
       match v with
       | PyNum z => Ok (PyBool (holds z))
       | PySeries s => Ok (PySeries ((fun e => (e.1, PyBool (compare holds e.2))) <$> s))
       | _ => Raise (TypeError "unorderable types")
       end).

Definition below_3 : Callable := comparison (fun z => z <? 3)%Z.

(** The time points 0 to 4, each labelled with itself. *)
Definition time_points : Series :=
  [(0, PyNum 0); (1, PyNum 1); (2, PyNum 2); (3, PyNum 3); (4, PyNum 4)]%Z.

Definition four_points : Series :=
  [(0, PyNum 0); (1, PyNum 1); (2, PyNum 2); (3, PyNum 3)]%Z.


(** [lambda ts: ts[:1]] *)
Definition first_only : Callable :=
  function "<lambda>" 1 ["ts"] None (Raise missing_argument)
    (fun ts =>
       match ts with
       | PySeries s => Ok (PySeries (slice_to s 1))
       | _ => Raise (TypeError "object is not subscriptable")
       end).

(** A built-in of two arguments, such as [operator.add]: a callable that
    has neither [__code__] nor [__defaults__]. *)
Definition builtin_add : Callable :=
  {| __name__ := "add"; is_BaseWrapper := false;
     __defaults__ := None; __code__ := None;
     call0 := Raise (TypeError "add expected 2 arguments, got 0");
     call1 := fun _ => Raise (TypeError "add expected 2 arguments, got 1");
     call_size := fun _ => Raise (TypeError "add() takes no keyword arguments") |}.

(** Tracks that hold the series they generate: track A has a value at
    each of the timestamps 0 to 4, track B at 0 to 2 only. *)
Definition track_a : Series :=
  [(0, PyNum 10); (1, PyNum 11); (2, PyNum 12); (3, PyNum 13); (4, PyNum 14)]%Z.
Definition track_b : Series :=
  [(0, PyNum 1); (1, PyNum 2); (2, PyNum 3)]%Z.

Definition held_track (self : series.TimeSeries (list (Z * PyVal)))
    (s : list (Z * PyVal)) : result (list (Z * PyVal)) := Ok s.

Definition generate_held (s : list (Z * PyVal)) : result (list (Z * PyVal)) :=
  Ok s.

Definition two_tracks : series.TimeSeries (list (Z * PyVal)) :=
  series.mkTimeSeries [0; 1; 2; 3; 4]%Z "h"
    (<["A" := track_a]> (<["B" := track_b]> ∅)).

(** An object that cannot be called, such as a list. *)
Definition not_callable (name : string) : Callable :=
  {| __name__ := name; is_BaseWrapper := false;
     __defaults__ := None; __code__ := None;
     call0 := Raise (TypeError "object is not callable");
     call1 := fun _ => Raise (TypeError "object is not callable");
     call_size := fun _ => Raise (TypeError "object is not callable") |}.

(** [def ones(size=1): return [1] * size] *)
Definition ones : Callable :=
  {| __name__ := "ones"; is_BaseWrapper := false;
     __defaults__ := Some (Some [PyNum 1]);
     __code__ := Some (mkCode 1 ["size"]);
     call0 := Ok (not_callable "list");
     call1 := fun _ => Raise (TypeError "can't multiply sequence by non-int");
     call_size := fun n => Ok (PyList (replicate n (PyNum 1))) |}.

(** [def successor(x):
       y = x + 1
       return y] *)
Definition successor : Callable :=
  function "successor" 1 ["x"; "y"] None (Raise missing_argument)
    (fun x =>
       match x with
       | PyNum z => Ok (PyNum (z + 1))
       | _ => Raise (TypeError "unsupported operand type(s) for +")
       end).

(** A step function that raises [e] at the time unit 3 and returns the
    time unit elsewhere. *)
Definition raising_at_3 (e : exn) : Callable :=
  function "step" 1 ["x"] None (Raise missing_argument)
    (fun x =>
       match x with
       | PyNum 3 => Raise e
       | _ => Ok x
       end).

(** [lambda v: True] *)
Definition always : Callable :=
  function "<lambda>" 1 ["v"] None (Raise missing_argument)
    (fun _ => Ok (PyBool true)).

(** A track whose [generate] raises. *)
Definition track_failure : exn := UserException "track failed".
Definition generate_unless_empty (s : list (Z * PyVal))
  : result (list (Z * PyVal)) :=
  match s with
  | [] => Raise track_failure
  | _ => Ok s
  end.

End examples.

(** ** Properties *)

Import Py Pandas.

(** *** The function adapter *)

Lemma truth_is_set (o : option Callable) :
  core_function.truth o = spec.is_set o.
Proof. by destruct o. Qed.

Lemma truth_is_set_py (o : option Callable) :
  functions_py.truth o = spec.is_set o.
Proof. by destruct o. Qed.

(** What [count_kargs] gives for an object that has both attributes. *)
Lemma count_kargs_function (function : Callable) (code : Code)
    (d : option (list PyVal)) :
  __code__ function = Some code →
  __defaults__ function = Some d →
  core_function.count_kargs function
  = Ok (co_varnames code,
        (Z.of_nat (length (co_varnames code))
         - Z.of_nat (default 0%nat (length <$> d)))%Z).
Proof.
  intros Hc Hd. unfold core_function.count_kargs, getattr_defaults, getattr_code.
  rewrite Hc, Hd. by destruct d.
Qed.

(** C10: an object without [__defaults__] or without [__code__], and not a
    wrapper, is returned as it is, whatever its parameters; nothing is
    called and nothing is raised. *)
Theorem C10_no_signature_returned_unchanged (function : Callable) :
  is_BaseWrapper function = false →
  __defaults__ function = None ∨ __code__ function = None →
  core_function._evaluate_function function = ([], Ok function).
Proof.
  destruct function as [name wrapper d c called body sized]; simpl.
  intros -> [-> | ->]; unfold core_function.count_kargs; simpl; [done |].
  by destruct d.
Qed.

Lemma C10_witness :
  core_function._evaluate_function examples.builtin_add
  = ([], Ok examples.builtin_add).
Proof.
  apply (C10_no_signature_returned_unchanged examples.builtin_add).
  - reflexivity.
  - left. reflexivity.
Defined.

(** C8: a function that is not a wrapper and has two or more required
    positional parameters is refused with a [ValueError] whose message
    states the count of arguments; no function comes out of the
    adaptation, and the function is not called. *)
Theorem C8_two_required_parameters_rejected (function : Callable) (code : Code)
    (d : option (list PyVal)) :
  is_BaseWrapper function = false →
  __code__ function = Some code →
  __defaults__ function = Some d →
  (co_argcount code ≤ length (co_varnames code))%nat →
  (2 ≤ required_positional code d)%Z →
  ∃ karg_count : Z,
    (required_positional code d ≤ karg_count)%Z
    ∧ core_function._evaluate_function function
      = ([], Raise (ValueError (core_function.msg_arguments karg_count))).
Proof.
  intros Hw Hc Hd Hargs Hreq.
  exists (Z.of_nat (length (co_varnames code))
          - Z.of_nat (default 0%nat (length <$> d)))%Z.
  split; [unfold required_positional in *; lia |].
  pose proof (count_kargs_function function code d Hc Hd) as Hk.
  destruct function as [name wrapper d' c' called body sized]; simpl in *.
  subst wrapper. rewrite Hk.
  unfold required_positional in Hreq.
  case_match eqn:Hlt; [done |].
  apply Z.ltb_ge in Hlt. lia.
Qed.

Lemma C8_witness :
  ∃ karg_count : Z,
    (required_positional (mkCode 2 ["a"; "b"]) None ≤ karg_count)%Z
    ∧ core_function._evaluate_function examples.add2
      = ([], Raise (ValueError (core_function.msg_arguments karg_count))).
Proof.
  apply (C8_two_required_parameters_rejected examples.add2 (mkCode 2 ["a"; "b"]) None).
  - reflexivity.
  - reflexivity.
  - reflexivity.
  - simpl. lia.
  - vm_compute. discriminate.
Defined.

(** A function generator whose code has no local variable besides its
    parameters is called once, and what it returns is adapted in turn. *)
Lemma generator_without_locals_resolved (function generated : Callable)
    (code : Code) (d : option (list PyVal)) :
  is_BaseWrapper function = false →
  __code__ function = Some code →
  __defaults__ function = Some d →
  length (co_varnames code) = co_argcount code →
  required_positional code d = 0%Z →
  "size" ∉ co_varnames code →
  call0 function = Ok generated →
  core_function._evaluate_function function
  = (__name__ function :: (core_function._evaluate_function generated).1,
     (core_function._evaluate_function generated).2).
Proof.
  intros Hw Hc Hd Hlen Hreq Hsize Hcall.
  pose proof (count_kargs_function function code d Hc Hd) as Hk.
  destruct function as [name wrapper d' c' called body sized]; simpl in *.
  subst wrapper called. rewrite Hk.
  unfold required_positional in Hreq. rewrite Hlen, Hreq. simpl.
  rewrite bool_decide_eq_false_2 by done. simpl.
  by destruct (core_function._evaluate_function generated).
Qed.

(** C9, at [gen]: it has no parameter and no [size], and calling it returns
    the one-argument [step]; yet its local variable is counted as an
    argument, so the adapter returns [gen] itself without calling it, where
    the generator without local variable [make_step] is called once and
    resolved to [step]. *)
Theorem C9_generator_with_local_not_resolved :
  required_positional (mkCode 0 ["step"]) None = 0%Z
  ∧ ("size" ∉ co_varnames (mkCode 0 ["step"]))
  ∧ call0 examples.gen = Ok examples.step
  ∧ core_function._evaluate_function examples.gen = ([], Ok examples.gen)
  ∧ snd (core_function._evaluate_function examples.gen) ≠ Ok examples.step
  ∧ core_function._evaluate_function examples.make_step
    = (["<lambda>"], Ok examples.step).
Proof.
  split_and!; try reflexivity.
  - intros H%list_elem_of_singleton. discriminate.
  - intros [=].
Qed.

(** *** Construction and strategy selection *)

(** C6: without [vectorized] and without [iterated] the constructor raises
    [ValueError]; with one of them it returns the instance that holds the
    three arguments.  Both versions of the class agree. *)
Theorem C6_constructor_requires_a_function (vectorized iterated condition : option Callable) :
  (vectorized = None → iterated = None →
     (∃ msg, core_function.__init__ vectorized iterated condition = Raise (ValueError msg))
     ∧ (∃ msg, functions_py.__init__ vectorized iterated condition = Raise (ValueError msg)))
  ∧ (is_Some vectorized ∨ is_Some iterated →
     core_function.__init__ vectorized iterated condition
     = Ok (core_function.mkTimeFunction vectorized iterated condition)
     ∧ functions_py.__init__ vectorized iterated condition
       = Ok (functions_py.mkTimeFunction vectorized iterated condition)).
Proof.
  split.
  - intros -> ->. split; eexists; reflexivity.
  - intros [[f ->] | [f ->]]; [done | by destruct vectorized].
Qed.

Lemma C6_witness :
  (∃ msg, core_function.__init__ None None (Some examples.step) = Raise (ValueError msg))
  ∧ core_function.__init__ None (Some examples.step) None
    = Ok (core_function.mkTimeFunction None (Some examples.step) None).
Proof.
  split.
  - apply (C6_constructor_requires_a_function None None (Some examples.step));
      reflexivity.
  - apply (C6_constructor_requires_a_function None (Some examples.step) None).
    right. eexists. reflexivity.
Defined.

(** C1: [generate] runs the strategy the selection rule names, in both
    versions of the class. *)
Theorem C1_strategy_selection :
  (∀ (self : core_function.TimeFunction) (time_units : Series),
     core_function.generate self time_units
     = match spec.select_strategy (core_function.condition self)
               (core_function.iterated self) (core_function.vectorized self) with
       | spec.Iterated => core_function._generate_iterated self time_units
       | spec.Vectorized => core_function._generate_vectorized self time_units
       end)
  ∧ (∀ (self : functions_py.TimeFunction) (time_units : Series),
       functions_py.generate self time_units
       = match spec.select_strategy (functions_py.condition self)
                 (functions_py.iterated self) (functions_py.vectorized self) with
         | spec.Iterated => functions_py._generate_iterated self time_units
         | spec.Vectorized => functions_py._generate_vectorized self time_units
         end).
Proof.
  split; intros [v i c] time_units;
    destruct v, i, c; reflexivity.
Qed.

(** *** Registration of tracks *)

(** C7: [add] under a name that is registered raises [ValueError] and
    leaves the object as it was; the track of that name is still the one
    registered first. *)
Theorem C7_duplicate_name_rejected {TimeTrack TrackArgs : Type}
    (TimeTrack_init : series.TimeSeries TimeTrack → TrackArgs → result TimeTrack)
    (self : series.TimeSeries TimeTrack) (name : string) (args : TrackArgs)
    (track : TimeTrack) :
  series.tracks self !! name = Some track →
  series.add TimeTrack_init self name args
  = (Raise (ValueError series.msg_already_given), self)
  ∧ series.tracks (series.add TimeTrack_init self name args).2 !! name
    = Some track.
Proof.
  intros Hreg. unfold series.add.
  rewrite bool_decide_eq_true_2 by (rewrite Hreg; eauto).
  by split.
Qed.

Lemma C7_witness :
  series.add examples.held_track examples.two_tracks "A" examples.track_b
  = (Raise (ValueError series.msg_already_given), examples.two_tracks)
  ∧ series.tracks
      (series.add examples.held_track examples.two_tracks "A"
         examples.track_b).2 !! "A"
    = Some examples.track_a.
Proof.
  apply (C7_duplicate_name_rejected examples.held_track examples.two_tracks "A"
           examples.track_b examples.track_a).
  reflexivity.
Defined.

(** *** The iterated strategy under a condition *)

Lemma list_of_generator_yield (x : PyVal) (g : Generator) :
  list_of_generator (x :: g.1, g.2) = cons x <$> list_of_generator g.
Proof. destruct g as [vs [[] |]]; reflexivity. Qed.

Lemma passing_prefix_le (passes : PyVal → bool) (l : list PyVal) :
  (spec.passing_prefix passes l ≤ length l)%nat.
Proof. induction l as [| t l IH]; simpl; [lia |]. destruct (passes t); simpl; lia. Qed.

Lemma passing_prefix_all (passes : PyVal → bool) (l : list PyVal) (i : nat) (t : PyVal) :
  (i < spec.passing_prefix passes l)%nat → l !! i = Some t → passes t = true.
Proof.
  revert i. induction l as [| x l IH]; simpl; intros i Hi Hl; [lia |].
  destruct (passes x) eqn:Hx; [| lia].
  destruct i as [| i]; simpl in Hl.
  - by inversion Hl; subst.
  - apply (IH i); [lia | done].
Qed.

Lemma passing_prefix_stop (passes : PyVal → bool) (l : list PyVal) :
  spec.passing_prefix passes l = length l
  ∨ ∃ t, l !! spec.passing_prefix passes l = Some t ∧ passes t = false.
Proof.
  induction l as [| x l IH]; simpl; [by left |].
  destruct (passes x) eqn:Hx.
  - destruct IH as [-> | IH]; [by left | by right].
  - right. by exists x.
Qed.

Lemma passing_prefix_length (passes : PyVal → bool) (l : list PyVal) :
  spec.passing_prefix passes l = length l ↔ ∀ t, t ∈ l → passes t = true.
Proof.
  induction l as [| x l IH]; simpl.
  - split; [by intros _ t ?%elem_of_nil | done].
  - destruct (passes x) eqn:Hx.
    + split.
      * intros [= Hlen] t [-> | Ht]%elem_of_cons; [done | by apply IH].
      * intros Hall. f_equal. apply IH. intros t Ht. apply Hall. by right.
    + split; [done |]. intros Hall. rewrite Hall in Hx; [done | by left].
Qed.

Section iterated_with_condition.

Variables (time_func c : Callable) (F : PyVal → PyVal) (C : PyVal → bool).

Let passes (t : PyVal) : bool := C (F t).

(** How the generator ends when the values of the first [k] of [n] time
    units pass: by the [StopIteration] of [next] when all of them do, by
    leaving the loop otherwise. *)
Let ending (k n : nat) : option exn :=
  if bool_decide (k = n) then Some StopIteration else None.

Lemma while_condition_prefix (iterator : list PyVal) (t0 : PyVal) :
  (∀ t, t ∈ t0 :: iterator → call1 time_func t = Ok (F t)) →
  (∀ t, t ∈ t0 :: iterator → call1 c (F t) ≫= truthy = Ok (C (F t))) →
  core_function.while_condition time_func c (F t0) iterator
  = (F <$> take (spec.passing_prefix passes (t0 :: iterator)) (t0 :: iterator),
     ending (spec.passing_prefix passes (t0 :: iterator)) (length (t0 :: iterator))).
Proof.
  revert t0. induction iterator as [| t iterator IH]; intros t0 Hf Hc.
  - cbn [core_function.while_condition spec.passing_prefix].
    rewrite (Hc t0) by (by left). unfold passes, ending.
    destruct (C (F t0)); reflexivity.
  - cbn [core_function.while_condition].
    rewrite (Hc t0) by (by left).
    assert (spec.passing_prefix passes (t0 :: t :: iterator)
            = if C (F t0) then S (spec.passing_prefix passes (t :: iterator))
              else 0%nat) as -> by reflexivity.
    destruct (C (F t0)).
    + rewrite (Hf t) by (by right; left).
      rewrite IH.
      * cbn [fst snd]. f_equal.
        unfold ending. cbn [length].
        repeat case_bool_decide; (reflexivity || lia).
      * intros t' Ht'. apply Hf. by right.
      * intros t' Ht'. apply Hc. by right.
    + unfold ending. cbn [length]. case_bool_decide; [lia | reflexivity].
Qed.

Lemma yield_values_prefix (time_units : Series) :
  (∀ t, t ∈ values time_units → call1 time_func t = Ok (F t)) →
  (∀ t, t ∈ values time_units → call1 c (F t) ≫= truthy = Ok (C (F t))) →
  core_function.yield_values time_func c time_units
  = (F <$> take (spec.passing_prefix passes (values time_units))
               (values time_units),
     ending (spec.passing_prefix passes (values time_units))
       (length (values time_units))).
Proof.
  intros Hf Hc. unfold core_function.yield_values.
  destruct (values time_units) as [| t0 iterator] eqn:Hv; [done |].
  cbn [next]. rewrite (Hf t0) by (by left).
  by apply while_condition_prefix.
Qed.

(** What [list] makes of the generator: the values of the passing prefix
    when a value fails, a [RuntimeError] when none does. *)
Lemma list_of_yield_values (time_units : Series) :
  (∀ t, t ∈ values time_units → call1 time_func t = Ok (F t)) →
  (∀ t, t ∈ values time_units → call1 c (F t) ≫= truthy = Ok (C (F t))) →
  list_of_generator (core_function.yield_values time_func c time_units)
  = if bool_decide (spec.passing_prefix passes (values time_units)
                    = length (values time_units))
    then Raise (RuntimeError generator_raised_StopIteration)
    else Ok (F <$> take (spec.passing_prefix passes (values time_units))
                        (values time_units)).
Proof.
  intros Hf Hc. rewrite (yield_values_prefix time_units Hf Hc).
  unfold ending. by case_bool_decide.
Qed.

(** The series [_generate_iterated] builds from the values collected. *)
Lemma collected_series (time_units : Series) (k : nat) :
  (k ≤ length time_units)%nat →
  new_Series (PyList (F <$> take k (values time_units)))
    (index (slice_to time_units (length (F <$> take k (values time_units)))))
  = Ok (zip (take k (index time_units)) (F <$> take k (values time_units))).
Proof.
  intros Hk. unfold new_Series, slice_to, index, values.
  rewrite !length_fmap, !length_take, !length_fmap.
  rewrite !Nat.min_l by lia.
  rewrite bool_decide_eq_true_2
    by (rewrite ?length_fmap, ?length_take, ?length_fmap; lia).
  by rewrite fmap_take.
Qed.

Lemma collected_is_longest_prefix (time_units : Series) :
  spec.longest_passing_prefix F C time_units
    (zip (take (spec.passing_prefix passes (values time_units)) (index time_units))
         (F <$> take (spec.passing_prefix passes (values time_units))
                     (values time_units))).
Proof.
  pose proof (passing_prefix_le passes (values time_units)) as Hle.
  unfold values in Hle. rewrite length_fmap in Hle.
  exists (spec.passing_prefix passes (values time_units)).
  split_and!.
  - done.
  - intros i t Hi Ht. by apply (passing_prefix_all passes (values time_units) i t).
  - destruct (passing_prefix_stop passes (values time_units)) as [Hall | Hstop].
    + left. rewrite Hall. unfold values. by rewrite length_fmap.
    + by right.
  - unfold index at 1. apply fst_zip.
    rewrite length_fmap, !length_take. unfold index, values.
    rewrite !length_fmap. lia.
  - unfold values at 1. apply snd_zip.
    rewrite length_fmap, !length_take. unfold index, values.
    rewrite !length_fmap. lia.
Qed.

End iterated_with_condition.

(** The iterated strategy under a condition, for a step function and a
    condition that return at every time point ([F] the value, [C] whether it
    passes).  When the value of some time point fails, [generate] returns
    the longest prefix of the time points whose values pass, the failing
    value left out.  When no value fails, the end of the time points (at
    once, for an empty index) leaves the generator as the [StopIteration] of
    [next], and [generate] raises [RuntimeError].  Both versions of the
    class. *)
Theorem iterated_condition_prefix_or_RuntimeError (c f time_func : Callable)
    (v : option Callable) (F : PyVal → PyVal) (C : PyVal → bool)
    (time_units : Series) :
  (∀ t, t ∈ values time_units → call1 time_func t = Ok (F t)) →
  (∀ t, t ∈ values time_units → call1 c (F t) ≫= truthy = Ok (C (F t))) →
  ((core_function._evaluate_function f).2 = Ok time_func →
     ((∃ t, t ∈ values time_units ∧ C (F t) = false) →
        ∃ out, core_function.generate
                 (core_function.mkTimeFunction v (Some f) (Some c)) time_units
               = Ok out
               ∧ spec.longest_passing_prefix F C time_units out)
     ∧ ((∀ t, t ∈ values time_units → C (F t) = true) →
          core_function.generate
            (core_function.mkTimeFunction v (Some f) (Some c)) time_units
          = Raise (RuntimeError generator_raised_StopIteration)))
  ∧ (call0 f = Ok time_func →
     ((∃ t, t ∈ values time_units ∧ C (F t) = false) →
        ∃ out, functions_py.generate
                 (functions_py.mkTimeFunction v (Some f) (Some c)) time_units
               = Ok (PySeries out)
               ∧ spec.longest_passing_prefix F C time_units out)
     ∧ ((∀ t, t ∈ values time_units → C (F t) = true) →
          functions_py.generate
            (functions_py.mkTimeFunction v (Some f) (Some c)) time_units
          = Raise (RuntimeError generator_raised_StopIteration))).
Proof.
  intros Hf Hc.
  pose proof (list_of_yield_values time_func c F C time_units Hf Hc) as Hy.
  pose proof (passing_prefix_le (fun t => C (F t)) (values time_units)) as Hle.
  pose proof (passing_prefix_length (fun t => C (F t)) (values time_units)) as Hall.
  assert ((∃ t, t ∈ values time_units ∧ C (F t) = false) →
          spec.passing_prefix (fun t => C (F t)) (values time_units)
          ≠ length (values time_units)) as Hsome.
  { intros (t & Ht & Hfalse) Hlen. rewrite (proj1 Hall Hlen t Ht) in Hfalse. done. }
  unfold values in Hle at 2. rewrite length_fmap in Hle.
  split; intros Had; split.
  - intros Hfail. eexists. split; [| apply collected_is_longest_prefix].
    unfold core_function.generate, core_function._generate_iterated.
    cbn [core_function.truth core_function.condition core_function.iterated
         attr default id].
    rewrite Had. cbn [mbind result_bind]. rewrite Hy.
    rewrite bool_decide_eq_false_2 by (by apply Hsome).
    cbn [mbind result_bind]. by apply collected_series.
  - intros Hpass.
    unfold core_function.generate, core_function._generate_iterated.
    cbn [core_function.truth core_function.condition core_function.iterated
         attr default id].
    rewrite Had. cbn [mbind result_bind]. rewrite Hy.
    by rewrite bool_decide_eq_true_2 by (by apply Hall).
  - intros Hfail. eexists. split; [| apply collected_is_longest_prefix].
    unfold functions_py.generate, functions_py._generate_iterated.
    cbn [functions_py.truth functions_py.condition functions_py.iterated
         attr default id].
    rewrite Had. cbn [mbind result_bind]. rewrite Hy.
    rewrite bool_decide_eq_false_2 by (by apply Hsome).
    cbn [mbind result_bind]. by rewrite (collected_series F time_units _ Hle).
  - intros Hpass.
    unfold functions_py.generate, functions_py._generate_iterated.
    cbn [functions_py.truth functions_py.condition functions_py.iterated
         attr default id].
    rewrite Had. cbn [mbind result_bind]. rewrite Hy.
    by rewrite bool_decide_eq_true_2 by (by apply Hall).
Qed.

(** The specification's example: time points 0 to 4, [f(t) = t] and
    [c(v) = v < 3] give the values 0, 1, 2 at the first three labels. *)
Example iterated_condition_example :
  core_function.generate
    (core_function.mkTimeFunction None (Some examples.step) (Some examples.below_3))
    examples.time_points
  = Ok [(0, PyNum 0); (1, PyNum 1); (2, PyNum 2)]%Z.
Proof. reflexivity. Qed.

Lemma iterated_condition_prefix_or_RuntimeError_witness :
  (∃ out, core_function.generate
            (core_function.mkTimeFunction None (Some examples.step)
               (Some examples.below_3)) examples.time_points = Ok out
          ∧ spec.longest_passing_prefix (fun t => t)
              (examples.compare (fun z => z <? 3)%Z) examples.time_points out)
  ∧ functions_py.generate
      (functions_py.mkTimeFunction None (Some examples.make_step)
         (Some examples.always)) examples.time_points
    = Raise (RuntimeError generator_raised_StopIteration).
Proof.
  split.
  - apply (iterated_condition_prefix_or_RuntimeError examples.below_3 examples.step
             examples.step None (fun t => t) (examples.compare (fun z => z <? 3)%Z)
             examples.time_points).
    + intros t _. reflexivity.
    + intros t Ht. simpl in Ht.
      repeat (apply elem_of_cons in Ht as [-> | Ht]; [reflexivity |]).
      by apply elem_of_nil in Ht.
    + reflexivity.
    + exists (PyNum 3). split; [| reflexivity].
      simpl. do 3 right. by left.
  - apply (iterated_condition_prefix_or_RuntimeError examples.always
             examples.make_step examples.step None (fun t => t) (fun _ => true)
             examples.time_points).
    + intros t _. reflexivity.
    + intros t _. reflexivity.
    + reflexivity.
    + intros t _. reflexivity.
Defined.

(** C2, where the code leaves it: with the step function [f(t) = t] and a
    condition that always holds, the specification asks for the values of
    all the time points, and for an empty series on an empty index.
    [next(iterator)] is called inside the generator, so at the end of the
    time points its [StopIteration] escapes the body of the generator and
    [generate] raises [RuntimeError], in both versions of the class.  A
    condition that fails at some time point gives the longest passing
    prefix. *)
Theorem C2_exhausted_time_points_raise_RuntimeError :
  core_function.generate
    (core_function.mkTimeFunction None (Some examples.step) (Some examples.always))
    examples.time_points
  = Raise (RuntimeError generator_raised_StopIteration)
  ∧ core_function.generate
      (core_function.mkTimeFunction None (Some examples.step) (Some examples.always))
      []
    = Raise (RuntimeError generator_raised_StopIteration)
  ∧ functions_py.generate
      (functions_py.mkTimeFunction None (Some examples.make_step)
         (Some examples.always)) examples.time_points
    = Raise (RuntimeError generator_raised_StopIteration)
  ∧ functions_py.generate
      (functions_py.mkTimeFunction None (Some examples.make_step)
         (Some examples.always)) []
    = Raise (RuntimeError generator_raised_StopIteration)
  ∧ core_function.generate
      (core_function.mkTimeFunction None (Some examples.step) (Some examples.below_3))
      examples.time_points
    = Ok [(0, PyNum 0); (1, PyNum 1); (2, PyNum 2)]%Z.
Proof. split_and!; reflexivity. Qed.

(** *** The vectorized strategy under a condition *)






(** *** Without a condition *)

Lemma apply_map (F : PyVal → PyVal) (func : PyVal → result PyVal)
    (s : list (Z * PyVal)) :
  (∀ t, t ∈ values s → func t = Ok (F t)) →
  apply s func = Ok (zip (index s) (F <$> values s)).
Proof.
  induction s as [| [t x] s IH]; intros Hf; [done |].
  cbn [apply]. rewrite (Hf x) by (by left). cbn [mbind result_bind].
  rewrite IH; [done |].
  intros t' Ht'. apply Hf. by right.
Qed.

Lemma fmap_fst_labelled {A B} (g : A → B) (l : list A) :
  ((fun t => (t, g t)) <$> l).*1 = l.
Proof. induction l as [| x l IH]; [done |]. cbn. by rewrite IH. Qed.

(** Values that are not a Series come out of [label_values] under the
    labels of the time units, one value for each. *)
Lemma label_values_index (returned : PyVal) (time_units out : list (Z * PyVal)) :
  (∀ s, returned ≠ PySeries s) →
  core_function.label_values returned time_units = Ok out →
  index out = index time_units.
Proof.
  intros Hns. unfold core_function.label_values, new_Series, index.
  destruct returned as [| b | z | l | s];
    try (intros [= <-]; by apply (fmap_fst_labelled (fun _ => _))).
  - destruct (bool_decide (length l = length time_units.*1)) eqn:Hlen;
      intros [= <-].
    apply bool_decide_eq_true_1 in Hlen. apply fst_zip. lia.
  - by destruct (Hns s).
Qed.

(** C5, as the code has it: without a condition, the iterated function
    gives one value for every time point, in order and under its label; the
    values of a vectorized function that are not a Series are labelled with
    the time points, one value each, and a list of another length is an
    error; a Series the vectorized function returns is the result as it is,
    whatever its length and labels. *)
Theorem C5_no_condition_one_value_per_label (f time_func : Callable)
    (time_units : list (Z * PyVal)) :
  (core_function._evaluate_function f).2 = Ok time_func →
  (∀ F : PyVal → PyVal,
     (∀ t, t ∈ values time_units → call1 time_func t = Ok (F t)) →
     core_function.generate (core_function.mkTimeFunction None (Some f) None)
       time_units
     = Ok (zip (index time_units) (F <$> values time_units)))
  ∧ (∀ returned : PyVal,
       call1 time_func (PySeries time_units) = Ok returned →
       (∀ s, returned = PySeries s →
          core_function.generate (core_function.mkTimeFunction (Some f) None None)
            time_units = Ok s)
       ∧ (∀ l, returned = PyList l → length l = length time_units →
            core_function.generate (core_function.mkTimeFunction (Some f) None None)
              time_units = Ok (zip (index time_units) l))
       ∧ (∀ l, returned = PyList l → length l ≠ length time_units →
            ∃ msg, core_function.generate
                     (core_function.mkTimeFunction (Some f) None None) time_units
                   = Raise (ValueError msg))
       ∧ (∀ out, (∀ s, returned ≠ PySeries s) →
            core_function.generate (core_function.mkTimeFunction (Some f) None None)
              time_units = Ok out →
            index out = index time_units ∧ length out = length time_units)).
Proof.
  intros Had. split.
  - intros F Hf.
    unfold core_function.generate, core_function._generate_iterated.
    cbn [core_function.truth core_function.condition core_function.iterated
         core_function.vectorized attr default id].
    rewrite Had. cbn [mbind result_bind]. by apply apply_map.
  - intros returned Hcall.
    assert (core_function.generate
              (core_function.mkTimeFunction (Some f) None None) time_units
            = core_function.label_values returned time_units) as ->.
    { unfold core_function.generate, core_function._generate_vectorized.
      cbn [core_function.truth core_function.condition core_function.iterated
           core_function.vectorized attr default id].
      rewrite Had. cbn [mbind result_bind]. rewrite Hcall. cbn [mbind result_bind].
      by destruct (core_function.label_values returned time_units). }
    split_and!.
    + by intros s ->.
    + intros l -> Hlen. unfold core_function.label_values, new_Series, index.
      rewrite bool_decide_eq_true_2; [done |]. by rewrite length_fmap.
    + intros l -> Hlen. unfold core_function.label_values, new_Series, index.
      rewrite bool_decide_eq_false_2; [by eexists |]. by rewrite length_fmap.
    + intros out Hns Hout.
      pose proof (label_values_index returned time_units out Hns Hout) as Hidx.
      split; [done |].
      apply (f_equal length) in Hidx. unfold index in Hidx.
      by rewrite !length_fmap in Hidx.
Qed.

Lemma C5_witness :
  core_function.generate
    (core_function.mkTimeFunction None (Some examples.step) None)
    examples.time_points
  = Ok (zip (index examples.time_points)
            ((fun t => t) <$> values examples.time_points))
  ∧ core_function.generate
      (core_function.mkTimeFunction (Some examples.first_only) None None)
      examples.time_points
    = Ok [(0, PyNum 0)]%Z.
Proof.
  split.
  - apply (C5_no_condition_one_value_per_label examples.step examples.step
             examples.time_points); [reflexivity |].
    intros t _. reflexivity.
  - apply (C5_no_condition_one_value_per_label examples.first_only
             examples.first_only examples.time_points eq_refl)
      with (returned := PySeries [(0, PyNum 0)]%Z); reflexivity.
Defined.

(** C5 as the specification words it fails at [lambda ts: ts[:1]]: no
    condition and only a vectorized function, five time points, one value. *)
Lemma C5_counterexample :
  core_function.condition
    (core_function.mkTimeFunction (Some examples.first_only) None None) = None
  ∧ ∃ out,
      core_function.generate
        (core_function.mkTimeFunction (Some examples.first_only) None None)
        examples.time_points = Ok out
      ∧ length examples.time_points = 5%nat
      ∧ length out = 1%nat.
Proof.
  split; [reflexivity |]. eexists. split_and!; reflexivity.
Qed.

(** *** Aggregation of the tracks *)

Lemma elem_of_insert_label (t y : Z) (idx : list Z) :
  y ∈ insert_label t idx ↔ y = t ∨ y ∈ idx.
Proof.
  induction idx as [| x idx IH]; simpl.
  - rewrite elem_of_cons. naive_solver.
  - destruct (t <? x)%Z eqn:Hlt; [apply elem_of_cons |].
    destruct (t =? x)%Z eqn:Heq.
    + apply Z.eqb_eq in Heq as ->. rewrite elem_of_cons. naive_solver.
    + rewrite !elem_of_cons, IH. naive_solver.
Qed.

Lemma elem_of_union_indexes (t : Z) (indexes : list (list Z)) :
  t ∈ union_indexes indexes ↔ ∃ idx, idx ∈ indexes ∧ t ∈ idx.
Proof.
  unfold union_indexes.
  assert (∀ l : list Z, t ∈ foldr insert_label [] l ↔ t ∈ l) as Hfold.
  { induction l as [| x l IH]; simpl; [done |].
    rewrite elem_of_insert_label, IH, elem_of_cons. naive_solver. }
  rewrite Hfold. clear Hfold.
  induction indexes as [| idx indexes IH]; simpl.
  - split; [by intros ?%elem_of_nil | by intros (? & ?%elem_of_nil & _)].
  - rewrite elem_of_app, IH. setoid_rewrite elem_of_cons. naive_solver.
Qed.

Lemma loc_None (s : list (Z * PyVal)) (t : Z) :
  loc s t = None ↔ t ∉ index s.
Proof.
  unfold index. induction s as [| [t' v] s IH]; simpl.
  - split; [intros _; apply not_elem_of_nil | done].
  - rewrite not_elem_of_cons. case_bool_decide; naive_solver.
Qed.

Lemma loc_Some (s : list (Z * PyVal)) (t : Z) (v : PyVal) :
  loc s t = Some v → (t, v) ∈ s.
Proof.
  induction s as [| [t' v'] s IH]; simpl; [done |].
  case_bool_decide as Ht.
  - intros [= <-]. subst. by left.
  - intros Hl. right. by apply IH.
Qed.

(** With labels that do not repeat, [loc] finds the entry of a label at
    the position the label has in the index. *)
Lemma loc_lookup (s : list (Z * PyVal)) (i : nat) (t : Z) (v : PyVal) :
  NoDup (index s) → s !! i = Some (t, v) → loc s t = Some v.
Proof.
  unfold index. revert i. induction s as [| [t' v'] s IH]; intros i Hnd Hi; [done |].
  simpl in Hnd. apply NoDup_cons in Hnd as [Hnotin Hnd].
  destruct i as [| i]; simpl in *.
  - injection Hi as -> ->. by rewrite bool_decide_eq_true_2.
  - rewrite bool_decide_eq_false_2; [by apply (IH i) |].
    intros ->. apply Hnotin.
    apply list_elem_of_fmap. exists (t, v). split; [done |].
    apply list_elem_of_lookup. by exists i.
Qed.

Lemma numeric_loc (s : list (Z * PyVal)) (t : Z) :
  spec.numeric s →
  cell_number (loc s t) = Ok (spec.contribution s t).
Proof.
  intros Hnum. unfold spec.contribution.
  destruct (loc s t) as [v |] eqn:Hloc; [| done].
  apply loc_Some in Hloc.
  unfold spec.numeric in Hnum. rewrite Forall_forall in Hnum.
  destruct (Hnum _ Hloc) as [z Hz]. simpl in Hz. by subst v.
Qed.

(** The sum of a row of the aligned tracks: a track without a value at the
    timestamp counts for zero. *)
Lemma sum_cells_total (objs : list (list (Z * PyVal))) (t : Z) :
  Forall spec.numeric objs →
  sum_cells ((fun s => loc s t) <$> objs) = Ok (spec.total objs t).
Proof.
  induction 1 as [| s objs Hs Hobjs IH]; [done |].
  rewrite fmap_cons. cbn [sum_cells]. rewrite (numeric_loc s t Hs).
  cbn [mbind result_bind]. by rewrite IH.
Qed.

Lemma sum_axis1_total (objs : list (list (Z * PyVal))) (idx : list Z) :
  Forall spec.numeric objs →
  sum_axis1 ((fun t => (t, (fun s => loc s t) <$> objs)) <$> idx)
  = Ok ((fun t => (t, PyNum (spec.total objs t))) <$> idx).
Proof.
  intros Hnum. induction idx as [| t idx IH]; [done |].
  rewrite !fmap_cons. cbn [sum_axis1]. rewrite (sum_cells_total objs t Hnum).
  cbn [mbind result_bind]. by rewrite IH.
Qed.

(** [insert_label] keeps an index strictly increasing, so the union of the
    indexes has every label once. *)
Lemma insert_label_increasing (t : Z) (idx : list Z) :
  StronglySorted Z.lt idx → StronglySorted Z.lt (insert_label t idx).
Proof.
  induction 1 as [| x idx Hsorted IH Hx]; simpl.
  - by repeat constructor.
  - destruct (t <? x)%Z eqn:Hlt.
    + apply Z.ltb_lt in Hlt. constructor; [by constructor |].
      constructor; [done |].
      eapply Forall_impl; [exact Hx |]. intros y Hy. simpl in Hy. lia.
    + destruct (t =? x)%Z eqn:Heq; [by constructor |].
      apply Z.ltb_ge in Hlt. apply Z.eqb_neq in Heq.
      constructor; [done |].
      rewrite Forall_forall. intros y [-> | Hy]%elem_of_insert_label; [lia |].
      rewrite Forall_forall in Hx. by apply Hx.
Qed.

Lemma increasing_NoDup (idx : list Z) : StronglySorted Z.lt idx → NoDup idx.
Proof.
  induction 1 as [| x idx Hsorted IH Hx]; constructor; [| done].
  intros Hin. rewrite Forall_forall in Hx. specialize (Hx x Hin). lia.
Qed.

Lemma NoDup_union_indexes (indexes : list (list Z)) :
  NoDup (union_indexes indexes).
Proof.
  apply increasing_NoDup. unfold union_indexes.
  induction (concat indexes) as [| t l IH]; simpl; [constructor |].
  by apply insert_label_increasing.
Qed.

(** The rows of [concat_axis1]: the labels of all the tracks, and in every
    row the value each track has at the label, if it has one. *)
Lemma concat_axis1_rows (objs : list (list (Z * PyVal))) :
  objs ≠ [] →
  Forall (fun s => NoDup (index s)) objs →
  ∃ idx : list Z,
    concat_axis1 objs = Ok ((fun t => (t, (fun s => loc s t) <$> objs)) <$> idx)
    ∧ NoDup idx
    ∧ (∀ t, t ∈ idx ↔ ∃ s, s ∈ objs ∧ t ∈ index s).
Proof.
  intros Hne Hnd. destruct objs as [| first rest]; [done |].
  unfold concat_axis1. case_bool_decide as Hsame.
  - exists (index first). split_and!.
    + f_equal. rewrite <- imap_const. apply imap_ext.
      intros i t Hi. unfold const. f_equal.
      apply Forall_fmap_ext. rewrite Forall_forall. intros s Hs.
      rewrite Forall_forall in Hsame, Hnd.
      pose proof (Hsame s Hs) as Hidx. pose proof (Hnd s Hs) as Hnds.
      rewrite <- Hidx in Hi. unfold index, values in *.
      rewrite list_lookup_fmap in Hi. rewrite list_lookup_fmap.
      destruct (s !! i) as [[t' v] |] eqn:Hsi; [| done].
      simpl in Hi. injection Hi as ->. simpl.
      symmetry. by apply (loc_lookup s i).
    + by apply Forall_cons in Hnd as [Hfirst _].
    + intros t. split.
      * intros Ht. exists first. split; [by left | done].
      * intros (s & Hs & Ht). rewrite Forall_forall in Hsame.
        by rewrite <- (Hsame s Hs).
  - rewrite bool_decide_eq_true_2 by done.
    eexists. split_and!; [reflexivity | apply NoDup_union_indexes |].
    intros t. rewrite elem_of_union_indexes. split.
    + intros (idx & (s & -> & Hs)%list_elem_of_fmap & Ht). by exists s.
    + intros (s & Hs & Ht). exists (index s). split; [| done].
      apply list_elem_of_fmap. by exists s.
Qed.

Lemma loc_labelled (g : Z → PyVal) (idx : list Z) (t : Z) :
  t ∈ idx → loc ((fun t => (t, g t)) <$> idx) t = Some (g t).
Proof.
  induction idx as [| x idx IH]; [by intros ?%elem_of_nil |].
  intros Ht. rewrite fmap_cons. cbn [loc]. case_bool_decide as Hx.
  - by subst.
  - apply elem_of_cons in Ht as [-> | Ht]; [done | by apply IH].
Qed.

(** The aggregate of a list of tracks: the labels are those of all the
    tracks, and the value at a label is the sum of what the tracks have
    there. *)
Lemma aggregate_total (objs : list (list (Z * PyVal))) :
  objs ≠ [] →
  Forall (fun s => NoDup (index s)) objs →
  Forall spec.numeric objs →
  ∃ agg : list (Z * PyVal),
    concat_axis1 objs ≫= sum_axis1 = Ok agg
    ∧ NoDup (index agg)
    ∧ agg = (fun t => (t, PyNum (spec.total objs t))) <$> index agg
    ∧ (∀ t, t ∈ index agg ↔ ∃ s, s ∈ objs ∧ t ∈ index s)
    ∧ (∀ t, t ∈ index agg → loc agg t = Some (PyNum (spec.total objs t))).
Proof.
  intros Hne Hnd Hnum.
  destruct (concat_axis1_rows objs Hne Hnd) as (idx & -> & Hnodup & Hidx).
  cbn [mbind result_bind]. rewrite (sum_axis1_total objs idx Hnum).
  eexists. split; [reflexivity |].
  unfold index. rewrite (fmap_fst_labelled (fun t => PyNum (spec.total objs t))).
  split_and!; [done | done | done |].
  intros t Ht. by apply (loc_labelled (fun t => PyNum (spec.total objs t))).
Qed.

Lemma total_Permutation (objs objs' : list (list (Z * PyVal))) (t : Z) :
  objs ≡ₚ objs' → spec.total objs t = spec.total objs' t.
Proof.
  unfold spec.total. induction 1; simpl; lia.
Qed.

Section series_generate.

Context {TimeTrack TrackResult : Type}.
Variable TimeTrack_generate : TimeTrack → result TrackResult.
Variable TrackResult_values : TrackResult → list (Z * PyVal).

(** The dictionary comprehension generates every track, under its name. *)
Lemma generate_items_all (items : list (string * TimeTrack)) :
  (∀ name track, (name, track) ∈ items → ∃ r, TimeTrack_generate track = Ok r) →
  ∃ rs : list (string * TrackResult),
    series.generate_items TimeTrack_generate items = Ok rs
    ∧ rs.*1 = items.*1
    ∧ (∀ name r, (name, r) ∈ rs ↔
         ∃ track, (name, track) ∈ items ∧ TimeTrack_generate track = Ok r).
Proof.
  induction items as [| [name track] items IH]; intros Hall.
  - exists []. split_and!; [done | done |].
    intros name r. split; [by intros ?%elem_of_nil |].
    by intros (? & ?%elem_of_nil & _).
  - destruct (Hall name track) as [r Hr]; [by left |].
    destruct IH as (rs & Hrs & Hnames & Hiff).
    { intros name' track' Hin. apply (Hall name' track'). by right. }
    exists ((name, r) :: rs). split_and!.
    + cbn [series.generate_items]. rewrite Hr. cbn [mbind result_bind].
      by rewrite Hrs.
    + rewrite !fmap_cons. by rewrite Hnames.
    + intros name' r'. rewrite elem_of_cons, Hiff. split.
      * intros [[= -> ->] | (track' & Hin & Hgen)].
        -- exists track. split; [by left | done].
        -- exists track'. split; [by right | done].
      * intros (track' & [[= -> ->] | Hin]%elem_of_cons & Hgen).
        -- left. congruence.
        -- right. by exists track'.
Qed.

End series_generate.

(** C4: when every track generates a series of numbers under labels that
    do not repeat, [generate] returns the per-track results and an
    aggregate aligned on the union of the labels of the tracks: it has one
    row for every label some track has and no other row, and the value of
    the row is the sum of the values the tracks have at the label, a track
    without the label adding zero.  With two tracks, at a label only the
    first one has, the aggregate is the value of the first. *)
Theorem C4_aggregate_sums_aligned_tracks {TimeTrack TrackResult : Type}
    (TimeTrack_generate : TimeTrack → result TrackResult)
    (TrackResult_values : TrackResult → list (Z * PyVal))
    (self : series.TimeSeries TimeTrack) :
  series.tracks self ≠ ∅ →
  (∀ name track, series.tracks self !! name = Some track →
     ∃ r, TimeTrack_generate track = Ok r
          ∧ NoDup (index (TrackResult_values r))
          ∧ spec.numeric (TrackResult_values r)) →
  ∃ res,
    series.generate TimeTrack_generate TrackResult_values self = Ok res
    ∧ (∀ name r, series.res_tracks res !! name = Some r ↔
         ∃ track, series.tracks self !! name = Some track
                  ∧ TimeTrack_generate track = Ok r)
    ∧ NoDup (index (series.res_values res))
    ∧ (∀ t, t ∈ index (series.res_values res) ↔
         ∃ name r, series.res_tracks res !! name = Some r
                   ∧ t ∈ index (TrackResult_values r))
    ∧ series.res_values res
      = (fun t =>
           (t, PyNum (spec.total
                        (TrackResult_values <$> (map_to_list (series.res_tracks res)).*2)
                        t)))
          <$> index (series.res_values res)
    ∧ (∀ t, t ∈ index (series.res_values res) →
         loc (series.res_values res) t
         = Some (PyNum (spec.total
                          (TrackResult_values <$> (map_to_list (series.res_tracks res)).*2)
                          t)))
    ∧ (∀ na nb ra rb t z, na ≠ nb →
         series.res_tracks res = <[na := ra]> {[nb := rb]} →
         loc (TrackResult_values ra) t = Some (PyNum z) →
         loc (TrackResult_values rb) t = None →
         loc (series.res_values res) t = Some (PyNum z)).
Proof.
  intros Hne Hall.
  destruct (generate_items_all TimeTrack_generate (map_to_list (series.tracks self)))
    as (rs & Hrs & Hnames & Hiff).
  { intros name track Hin%elem_of_map_to_list.
    destruct (Hall name track Hin) as (r & Hr & _). by exists r. }
  assert (NoDup rs.*1) as Hnd.
  { rewrite Hnames. apply NoDup_fst_map_to_list. }
  set (results := list_to_map rs : gmap string TrackResult).
  assert (∀ name r, results !! name = Some r ↔
            ∃ track, series.tracks self !! name = Some track
                     ∧ TimeTrack_generate track = Ok r) as Hres.
  { intros name r. unfold results.
    rewrite <- (elem_of_list_to_map rs name r Hnd), Hiff.
    by setoid_rewrite elem_of_map_to_list. }
  set (objs := TrackResult_values <$> (map_to_list results).*2).
  assert (∀ s, s ∈ objs ↔ ∃ name r, results !! name = Some r
                                     ∧ s = TrackResult_values r) as Hobjs.
  { intros s. unfold objs. rewrite list_elem_of_fmap. split.
    - intros (r & -> & ([name r'] & -> & Hin)%list_elem_of_fmap).
      exists name, r'. by apply elem_of_map_to_list in Hin.
    - intros (name & r & Hin & ->). exists r. split; [done |].
      apply list_elem_of_fmap. exists (name, r). split; [done |].
      by apply elem_of_map_to_list. }
  destruct (aggregate_total objs) as (agg & Hagg & Hnodup & Hrows & Hidx & Hloc).
  { destruct (map_to_list (series.tracks self)) as [| [name track] items] eqn:Hitems.
    - by apply map_to_list_empty_iff in Hitems.
    - assert (series.tracks self !! name = Some track) as Hin.
      { apply elem_of_map_to_list. rewrite Hitems. by left. }
      destruct (Hall name track Hin) as (r & Hr & _).
      assert (TrackResult_values r ∈ objs) as Hr'.
      { apply Hobjs. exists name, r. split; [| done]. apply Hres. by exists track. }
      intros Hnil. rewrite Hnil in Hr'. by apply elem_of_nil in Hr'. }
  { rewrite Forall_forall. intros s (name & r & Hin & ->)%Hobjs.
    apply Hres in Hin as (track & Hin & Hgen).
    destruct (Hall name track Hin) as (r' & Hr' & Hnd' & _). congruence. }
  { rewrite Forall_forall. intros s (name & r & Hin & ->)%Hobjs.
    apply Hres in Hin as (track & Hin & Hgen).
    destruct (Hall name track Hin) as (r' & Hr' & _ & Hnum'). congruence. }
  exists (series.mkTimeSeriesResult results agg).
  assert (∀ t, t ∈ index agg ↔
            ∃ name r, results !! name = Some r ∧ t ∈ index (TrackResult_values r))
    as Hlabels.
  { intros t. rewrite Hidx. split.
    - intros (s & (name & r & Hin & ->)%Hobjs & Ht). by exists name, r.
    - intros (name & r & Hin & Ht). exists (TrackResult_values r).
      split; [| done]. apply Hobjs. by exists name, r. }
  split_and!; cbn [series.res_tracks series.res_values]; try done.
  - unfold series.generate. rewrite Hrs. cbn [mbind result_bind].
    fold results. fold objs.
    destruct (concat_axis1 objs) as [df | e]; cbn [mbind result_bind] in *;
      [| done].
    by rewrite Hagg.
  - intros na nb ra rb t z Hnab Hmap Ha Hb.
    assert (t ∈ index agg) as Ht.
    { apply Hlabels. exists na, ra. split.
      - rewrite Hmap. apply lookup_insert_eq.
      - apply loc_Some in Ha. unfold index.
        apply list_elem_of_fmap. by exists (t, PyNum z). }
    rewrite (Hloc t Ht). do 2 f_equal.
    assert (objs ≡ₚ [TrackResult_values ra; TrackResult_values rb]) as Hperm.
    { unfold objs. rewrite Hmap.
      rewrite map_to_list_insert by (by apply lookup_singleton_ne).
      by rewrite map_to_list_singleton. }
    rewrite (total_Permutation _ _ t Hperm).
    unfold spec.total, spec.contribution; simpl. rewrite Ha, Hb. lia.
Qed.

(** The specification's example: track A over the timestamps 0 to 4, track
    B over 0 to 2; at 3 and 4 the aggregate is the value of A. *)
Example aggregate_example :
  series.res_values
    <$> series.generate examples.generate_held (fun r => r) examples.two_tracks
  = Ok [(0, PyNum 11); (1, PyNum 13); (2, PyNum 15); (3, PyNum 13); (4, PyNum 14)]%Z.
Proof. vm_compute. reflexivity. Qed.

Lemma C4_witness :
  ∃ res,
    series.generate examples.generate_held (fun r => r) examples.two_tracks = Ok res
    ∧ NoDup (index (series.res_values res))
    ∧ (∀ t, t ∈ index (series.res_values res) ↔
         ∃ name r, series.res_tracks res !! name = Some r ∧ t ∈ index r)
    ∧ (∀ t, t ∈ index (series.res_values res) →
         loc (series.res_values res) t
         = Some (PyNum (spec.total
                          ((fun r => r) <$> (map_to_list (series.res_tracks res)).*2) t))).
Proof.
  destruct (C4_aggregate_sums_aligned_tracks examples.generate_held (fun r => r)
              examples.two_tracks) as (res & Hgen & _ & Hnodup & Hlabels & _ & Hsum & _).
  - intros Hempty. apply (f_equal (fun m => m !! "A")) in Hempty.
    vm_compute in Hempty. discriminate.
  - intros name track Hin. exists track. split; [reflexivity |].
    unfold examples.two_tracks in Hin. cbn [series.tracks] in Hin.
    apply lookup_insert_Some in Hin as [[_ <-] | [_ Hin]].
    + split; [by apply (bool_decide_unpack _); vm_compute |].
      repeat constructor; eexists; reflexivity.
    + apply lookup_insert_Some in Hin as [[_ <-] | [_ Hin]].
      * split; [by apply (bool_decide_unpack _); vm_compute |].
        repeat constructor; eexists; reflexivity.
      * by rewrite lookup_empty in Hin.
  - exists res. by split_and!.
Defined.

(** ** Further properties of the adapter *)

Lemma generator_without_locals_witness :
  core_function._evaluate_function examples.make_step
  = (__name__ examples.make_step
       :: (core_function._evaluate_function examples.step).1,
     (core_function._evaluate_function examples.step).2).
Proof.
  apply (generator_without_locals_resolved examples.make_step examples.step
           (mkCode 0 []) None); try reflexivity.
  apply not_elem_of_nil.
Defined.

(** What decides the rejection is [len(co_varnames) - len(__defaults__)]:
    every local variable of the function counts as one more argument.  A
    function of one parameter that has a local variable of its own is
    therefore refused like a function of two parameters. *)
Theorem local_variables_counted_as_arguments (function : Callable)
    (code : Code) (locals : list string) (x : string) :
  is_BaseWrapper function = false →
  __code__ function = Some code →
  __defaults__ function = Some None →
  co_argcount code = 1%nat →
  co_varnames code = x :: locals →
  locals ≠ [] →
  required_positional code None = 1%Z
  ∧ core_function._evaluate_function function
    = ([], Raise (ValueError
                    (core_function.msg_arguments (1 + Z.of_nat (length locals))))).
Proof.
  intros Hw Hc Hd Hargs Hnames Hlocals.
  split; [unfold required_positional; rewrite Hargs; reflexivity |].
  pose proof (count_kargs_function function code None Hc Hd) as Hk.
  destruct function as [name wrapper d' c' called body sized]; simpl in *.
  subst wrapper. rewrite Hk, Hnames. simpl length.
  replace (Z.of_nat (S (length locals)) - Z.of_nat 0)%Z
    with (1 + Z.of_nat (length locals))%Z by lia.
  destruct locals as [| y locals]; [done |].
  case_match eqn:Hlt; [done |].
  apply Z.ltb_ge in Hlt. simpl length in Hlt. lia.
Qed.

Lemma local_variables_counted_witness :
  required_positional (mkCode 1 ["x"; "y"]) None = 1%Z
  ∧ core_function._evaluate_function examples.successor
    = ([], Raise (ValueError
                    (core_function.msg_arguments (1 + Z.of_nat (length ["y"]))))).
Proof.
  apply (local_variables_counted_as_arguments examples.successor
           (mkCode 1 ["x"; "y"]) ["y"] "x"); try reflexivity.
  discriminate.
Defined.

(** A function without required argument that has a keyword [size] is not
    called when it is adapted; as the vectorized function it is called once,
    with the number of time units as [size], and the list it returns is
    labelled with the time units. *)
Theorem size_keyword_receives_number_of_time_units (function : Callable)
    (code : Code) (defaults : list PyVal) (time_units : list (Z * PyVal))
    (produced : list PyVal) :
  is_BaseWrapper function = false →
  __code__ function = Some code →
  __defaults__ function = Some (Some defaults) →
  length (co_varnames code) = length defaults →
  "size" ∈ co_varnames code →
  call_size function (length time_units) = Ok (PyList produced) →
  length produced = length time_units →
  core_function._evaluate_function function
  = ([], Ok (core_function.size_lambda function))
  ∧ core_function.generate
      (core_function.mkTimeFunction (Some function) None None) time_units
    = Ok (zip (index time_units) produced).
Proof.
  intros Hw Hc Hd Hlen Hsize Hcall Hprod.
  assert (core_function._evaluate_function function
          = ([], Ok (core_function.size_lambda function))) as Had.
  { pose proof (count_kargs_function function code (Some defaults) Hc Hd) as Hk.
    destruct function as [name wrapper d' c' called body sized]; simpl in *.
    subst wrapper. rewrite Hk, Hlen, Z.sub_diag. simpl.
    by rewrite bool_decide_eq_true_2. }
  split; [done |].
  unfold core_function.generate, core_function._generate_vectorized.
  cbn [core_function.truth core_function.condition core_function.iterated
       core_function.vectorized attr default id].
  rewrite Had. cbn [snd mbind result_bind core_function.size_lambda call1 shape0].
  rewrite Hcall. cbn [mbind result_bind core_function.label_values new_Series].
  unfold index. rewrite bool_decide_eq_true_2 by (by rewrite length_fmap).
  reflexivity.
Qed.

Lemma size_keyword_witness :
  core_function._evaluate_function examples.ones
  = ([], Ok (core_function.size_lambda examples.ones))
  ∧ core_function.generate
      (core_function.mkTimeFunction (Some examples.ones) None None)
      examples.four_points
    = Ok (zip (index examples.four_points) (replicate 4 (PyNum 1))).
Proof.
  apply (size_keyword_receives_number_of_time_units examples.ones
           (mkCode 1 ["size"]) [PyNum 1] examples.four_points
           (replicate 4 (PyNum 1))); try reflexivity.
  by left.
Defined.

(** An instance that [__init__] returned always has the function of the
    strategy [generate] runs: the iterated strategy is never run without an
    iterated function, nor the vectorized one without a vectorized
    function.  Both versions of the class. *)
Theorem constructed_instance_has_the_function_it_runs
    (vectorized iterated condition : option Callable) (time_units : list (Z * PyVal)) :
  (∀ self, core_function.__init__ vectorized iterated condition = Ok self →
     (core_function.generate self time_units
      = core_function._generate_iterated self time_units
      ∧ is_Some (core_function.iterated self))
     ∨ (core_function.generate self time_units
        = core_function._generate_vectorized self time_units
        ∧ is_Some (core_function.vectorized self)))
  ∧ (∀ self, functions_py.__init__ vectorized iterated condition = Ok self →
       (functions_py.generate self time_units
        = functions_py._generate_iterated self time_units
        ∧ is_Some (functions_py.iterated self))
       ∨ (functions_py.generate self time_units
          = functions_py._generate_vectorized self time_units
          ∧ is_Some (functions_py.vectorized self))).
Proof.
  split; intros self;
    destruct vectorized as [v |], iterated as [i |], condition as [c |];
    intros [= <-]; simpl; eauto.
Qed.

Lemma constructed_instance_witness :
  core_function.generate
    (core_function.mkTimeFunction None (Some examples.step) None)
    examples.time_points
  = core_function._generate_iterated
      (core_function.mkTimeFunction None (Some examples.step) None)
      examples.time_points
  ∧ is_Some (Some examples.step).
Proof.
  destruct (constructed_instance_has_the_function_it_runs None (Some examples.step)
              None examples.time_points) as [Hcore _].
  destruct (Hcore (core_function.mkTimeFunction None (Some examples.step) None)
              eq_refl) as [H | [_ [g Hg]]].
  - exact H.
  - discriminate Hg.
Defined.

(** ** Further properties of the iterated strategy *)

Section iterated_stops.

Variables (time_func c : Callable) (F : PyVal → PyVal).

(** The loop up to the time unit [stop], where [passed] are the time units
    before it whose values pass the condition: the values of [passed] are
    yielded, and the generator ends the way it ends at [stop]. *)
Lemma while_condition_until (passed post : list PyVal) (t0 stop : PyVal)
    (ending : option exn) :
  (∀ t, t ∈ t0 :: passed →
     call1 time_func t = Ok (F t) ∧ call1 c (F t) ≫= truthy = Ok true) →
  match call1 time_func stop with
  | Raise e => ([], Some e)
  | Ok v => core_function.while_condition time_func c v post
  end = ([], ending) →
  core_function.while_condition time_func c (F t0) (passed ++ stop :: post)
  = (F <$> t0 :: passed, ending).
Proof.
  revert t0. induction passed as [| t passed IH]; intros t0 Hpass Hstop.
  - destruct (Hpass t0) as [_ Hc]; [by left |].
    cbn [core_function.while_condition app]. rewrite Hc, Hstop. reflexivity.
  - destruct (Hpass t0) as [_ Hc]; [by left |].
    destruct (Hpass t) as [Hf _]; [by right; left |].
    cbn [core_function.while_condition app]. rewrite Hc, Hf, IH; [done | | done].
    intros t' Ht'. apply Hpass. by right.
Qed.

Lemma yield_values_until (passed post : list (Z * PyVal)) (stop : Z * PyVal)
    (ending : option exn) :
  (∀ t, t ∈ values passed →
     call1 time_func t = Ok (F t) ∧ call1 c (F t) ≫= truthy = Ok true) →
  match call1 time_func stop.2 with
  | Raise e => ([], Some e)
  | Ok v => core_function.while_condition time_func c v (values post)
  end = ([], ending) →
  core_function.yield_values time_func c (passed ++ stop :: post)
  = (F <$> values passed, ending).
Proof.
  intros Hpass Hstop. unfold core_function.yield_values, values in *.
  rewrite fmap_app, fmap_cons.
  destruct passed as [| [l0 t0] passed]; cbn [fmap list_fmap app next].
  - exact Hstop.
  - destruct (Hpass t0) as [Hf _]; [by left |].
    simpl snd. rewrite Hf. by apply while_condition_until.
Qed.

(** The series built from the values of the time units [passed]. *)
Lemma collected_passed (passed rest : list (Z * PyVal)) :
  new_Series (PyList (F <$> values passed))
    (index (slice_to (passed ++ rest) (length (F <$> values passed))))
  = Ok (zip (index passed) (F <$> values passed)).
Proof.
  unfold new_Series, slice_to, index, values.
  rewrite !length_fmap, take_app_length.
  by rewrite bool_decide_eq_true_2.
Qed.

End iterated_stops.

(** The iterated strategy under a condition ends at the first value that
    fails the condition: the result is made of the time units before it,
    and neither the step function nor the condition is evaluated at a later
    time unit, whatever they would do there. *)
Theorem iterated_condition_stops_at_first_failure (c f time_func : Callable)
    (v : option Callable) (F : PyVal → PyVal)
    (passed rest : list (Z * PyVal)) (failing : Z * PyVal) :
  (core_function._evaluate_function f).2 = Ok time_func →
  (∀ t, t ∈ values passed →
     call1 time_func t = Ok (F t) ∧ call1 c (F t) ≫= truthy = Ok true) →
  call1 time_func failing.2 = Ok (F failing.2) →
  call1 c (F failing.2) ≫= truthy = Ok false →
  core_function.generate
    (core_function.mkTimeFunction v (Some f) (Some c))
    (passed ++ failing :: rest)
  = Ok (zip (index passed) (F <$> values passed)).
Proof.
  intros Had Hpass Hf Hc.
  unfold core_function.generate, core_function._generate_iterated.
  cbn [core_function.truth core_function.condition core_function.iterated
       attr default id].
  rewrite Had. cbn [mbind result_bind].
  rewrite (yield_values_until time_func c F passed rest failing None Hpass).
  - cbn [list_of_generator mbind result_bind]. apply collected_passed.
  - rewrite Hf. destruct (values rest); cbn [core_function.while_condition];
      by rewrite Hc.
Qed.

Lemma iterated_condition_stops_witness :
  core_function.generate
    (core_function.mkTimeFunction None
       (Some (examples.raising_at_3 (UserException "no value")))
       (Some (examples.comparison (fun z => z <? 2)%Z)))
    ([(0, PyNum 0); (1, PyNum 1)]%Z ++ (2, PyNum 2)%Z :: [(3, PyNum 3); (4, PyNum 4)]%Z)
  = Ok (zip (index [(0, PyNum 0); (1, PyNum 1)]%Z)
            ((fun t => t) <$> values [(0, PyNum 0); (1, PyNum 1)]%Z)).
Proof.
  apply (iterated_condition_stops_at_first_failure
           (examples.comparison (fun z => z <? 2)%Z)
           (examples.raising_at_3 (UserException "no value"))
           (examples.raising_at_3 (UserException "no value"))
           None (fun t => t)); try reflexivity.
  intros t Ht. simpl in Ht.
  repeat (apply elem_of_cons in Ht as [-> | Ht]; [by split |]).
  by apply elem_of_nil in Ht.
Defined.

(** An exception the step function raises while the values still pass:
    the values collected so far are dropped and the exception reaches the
    caller as it is, except a [StopIteration], which leaves the generator
    the way the end of the time units does and reaches the caller as a
    [RuntimeError]. *)
Theorem iterated_condition_exception_of_step (c f time_func : Callable)
    (v : option Callable) (F : PyVal → PyVal)
    (passed rest : list (Z * PyVal)) (raising : Z * PyVal) (e : exn) :
  (core_function._evaluate_function f).2 = Ok time_func →
  (∀ t, t ∈ values passed →
     call1 time_func t = Ok (F t) ∧ call1 c (F t) ≫= truthy = Ok true) →
  call1 time_func raising.2 = Raise e →
  core_function.generate
    (core_function.mkTimeFunction v (Some f) (Some c))
    (passed ++ raising :: rest)
  = match e with
    | StopIteration => Raise (RuntimeError generator_raised_StopIteration)
    | _ => Raise e
    end.
Proof.
  intros Had Hpass Hf.
  unfold core_function.generate, core_function._generate_iterated.
  cbn [core_function.truth core_function.condition core_function.iterated
       attr default id].
  rewrite Had. cbn [mbind result_bind].
  rewrite (yield_values_until time_func c F passed rest raising (Some e) Hpass)
    by (by rewrite Hf).
  by destruct e.
Qed.

Lemma iterated_condition_exception_witness :
  core_function.generate
    (core_function.mkTimeFunction None
       (Some (examples.raising_at_3 StopIteration)) (Some examples.always))
    ([(0, PyNum 0); (1, PyNum 1); (2, PyNum 2)]%Z ++ (3, PyNum 3)%Z :: [(4, PyNum 4)]%Z)
  = Raise (RuntimeError generator_raised_StopIteration)
  ∧ core_function.generate
      (core_function.mkTimeFunction None
         (Some (examples.raising_at_3 (UserException "no value")))
         (Some examples.always))
      ([(0, PyNum 0); (1, PyNum 1); (2, PyNum 2)]%Z ++ (3, PyNum 3)%Z :: [(4, PyNum 4)]%Z)
    = Raise (UserException "no value").
Proof.
  split.
  - apply (iterated_condition_exception_of_step examples.always
             (examples.raising_at_3 StopIteration)
             (examples.raising_at_3 StopIteration) None (fun t => t)
             [(0, PyNum 0); (1, PyNum 1); (2, PyNum 2)]%Z [(4, PyNum 4)]%Z
             (3, PyNum 3)%Z StopIteration); try reflexivity.
    intros t Ht. simpl in Ht.
    repeat (apply elem_of_cons in Ht as [-> | Ht]; [by split |]).
    by apply elem_of_nil in Ht.
  - apply (iterated_condition_exception_of_step examples.always
             (examples.raising_at_3 (UserException "no value"))
             (examples.raising_at_3 (UserException "no value")) None (fun t => t)
             [(0, PyNum 0); (1, PyNum 1); (2, PyNum 2)]%Z [(4, PyNum 4)]%Z
             (3, PyNum 3)%Z (UserException "no value")); try reflexivity.
    intros t Ht. simpl in Ht.
    repeat (apply elem_of_cons in Ht as [-> | Ht]; [by split |]).
    by apply elem_of_nil in Ht.
Defined.

(** The generator yields at most one value for every time unit. *)
Lemma while_condition_yields_le (time_func c : Callable) (iterator : list PyVal)
    (current_val : PyVal) :
  (length (core_function.while_condition time_func c current_val iterator).1
   ≤ S (length iterator))%nat.
Proof.
  revert current_val. induction iterator as [| t iterator IH]; intros current_val;
    cbn [core_function.while_condition].
  - destruct (call1 c current_val ≫= truthy) as [[] |]; simpl; lia.
  - destruct (call1 c current_val ≫= truthy) as [[] |]; simpl; try lia.
    destruct (call1 time_func t) as [next_val |]; simpl; [| lia].
    specialize (IH next_val). lia.
Qed.

Lemma yield_values_yields_le (time_func c : Callable) (time_units : list (Z * PyVal)) :
  (length (core_function.yield_values time_func c time_units).1
   ≤ length time_units)%nat.
Proof.
  unfold core_function.yield_values, values.
  destruct time_units as [| [l t] time_units]; cbn [fmap list_fmap next]; [simpl; lia |].
  simpl snd. destruct (call1 time_func t) as [current_val |]; [| simpl; lia].
  pose proof (while_condition_yields_le time_func c time_units.*2 current_val) as Hle.
  rewrite length_fmap in Hle. simpl. lia.
Qed.

Lemma list_of_generator_Ok (g : list PyVal * option exn) (collected : list PyVal) :
  list_of_generator g = Ok collected → collected = g.1.
Proof. destruct g as [vs [[] |]]; simpl; congruence. Qed.

(** Whatever the step function and the condition do, a result of the
    iterated strategy under a condition is a contiguous prefix of the time
    units: its labels are the first labels of the time units, as many as
    there are values, and no label is skipped. *)
Theorem iterated_condition_result_is_prefix (c f : Callable) (v : option Callable)
    (time_units out : list (Z * PyVal)) :
  core_function.generate
    (core_function.mkTimeFunction v (Some f) (Some c)) time_units = Ok out →
  (length out ≤ length time_units)%nat
  ∧ index out = take (length out) (index time_units).
Proof.
  unfold core_function.generate, core_function._generate_iterated.
  cbn [core_function.truth core_function.condition core_function.iterated
       attr default id].
  destruct (core_function._evaluate_function f).2 as [time_func |];
    cbn [mbind result_bind]; [| done].
  pose proof (yield_values_yields_le time_func c time_units) as Hle.
  destruct (list_of_generator (core_function.yield_values time_func c time_units))
    as [collected |] eqn:Hlist; cbn [mbind result_bind]; [| done].
  apply list_of_generator_Ok in Hlist. rewrite <- Hlist in Hle.
  unfold new_Series, slice_to, index.
  case_bool_decide as Hlen; [| done]. intros [= <-].
  rewrite length_fmap, length_take in Hlen.
  rewrite length_zip, length_fmap, length_take.
  split; [lia |].
  rewrite fst_zip by (rewrite length_fmap, length_take; lia).
  rewrite fmap_take. f_equal. lia.
Qed.

Lemma iterated_condition_result_is_prefix_witness :
  (length [(0, PyNum 0); (1, PyNum 1); (2, PyNum 2)]%Z ≤ length examples.time_points)%nat
  ∧ index [(0, PyNum 0); (1, PyNum 1); (2, PyNum 2)]%Z
    = take (length [(0, PyNum 0); (1, PyNum 1); (2, PyNum 2)]%Z)
        (index examples.time_points).
Proof.
  apply (iterated_condition_result_is_prefix examples.below_3 examples.step None
           examples.time_points [(0, PyNum 0); (1, PyNum 1); (2, PyNum 2)]%Z).
  reflexivity.
Defined.

(** Without a condition, an exception the step function raises at a time
    unit reaches the caller: there is no result, not even for the time
    units before it. *)
Theorem iterated_exception_propagates (f time_func : Callable)
    (before rest : list (Z * PyVal)) (raising : Z * PyVal) (e : exn) :
  (core_function._evaluate_function f).2 = Ok time_func →
  (∀ t, t ∈ values before → ∃ y, call1 time_func t = Ok y) →
  call1 time_func raising.2 = Raise e →
  core_function.generate (core_function.mkTimeFunction None (Some f) None)
    (before ++ raising :: rest)
  = Raise e.
Proof.
  intros Had Hbefore Hraise.
  unfold core_function.generate, core_function._generate_iterated.
  cbn [core_function.truth core_function.condition core_function.iterated
       core_function.vectorized attr default id].
  rewrite Had. cbn [mbind result_bind].
  induction before as [| [l t] before IH]; cbn [app apply].
  - destruct raising as [l t]. simpl in Hraise. by rewrite Hraise.
  - destruct (Hbefore t) as [y Hy]; [by left |].
    rewrite Hy. cbn [mbind result_bind]. rewrite IH; [done |].
    intros t' Ht'. apply Hbefore. by right.
Qed.

Lemma iterated_exception_propagates_witness :
  core_function.generate
    (core_function.mkTimeFunction None
       (Some (examples.raising_at_3 (UserException "no value"))) None)
    ([(0, PyNum 0); (1, PyNum 1); (2, PyNum 2)]%Z ++ (3, PyNum 3)%Z :: [(4, PyNum 4)]%Z)
  = Raise (UserException "no value").
Proof.
  apply (iterated_exception_propagates
           (examples.raising_at_3 (UserException "no value"))
           (examples.raising_at_3 (UserException "no value"))
           [(0, PyNum 0); (1, PyNum 1); (2, PyNum 2)]%Z [(4, PyNum 4)]%Z
           (3, PyNum 3)%Z (UserException "no value")); try reflexivity.
  intros t Ht. simpl in Ht.
  repeat (apply elem_of_cons in Ht as [-> | Ht]; [by eexists |]).
  by apply elem_of_nil in Ht.
Defined.

(** The two versions of the class give the same result whenever adapting
    the function amounts to calling it without arguments, as for a function
    generator: in the iterated strategy always, in the vectorized strategy
    when the function returns a Series. *)
Theorem versions_agree_on_function_generators (f : Callable)
    (c : option Callable) (time_units : list (Z * PyVal)) :
  (core_function._evaluate_function f).2 = call0 f →
  functions_py.generate (functions_py.mkTimeFunction None (Some f) c) time_units
  = PySeries <$> core_function.generate
                   (core_function.mkTimeFunction None (Some f) c) time_units
  ∧ (∀ time_func s,
       call0 f = Ok time_func →
       call1 time_func (PySeries time_units) = Ok (PySeries s) →
       functions_py.generate (functions_py.mkTimeFunction (Some f) None c) time_units
       = PySeries <$> core_function.generate
                        (core_function.mkTimeFunction (Some f) None c) time_units).
Proof.
  intros Had. split.
  - assert (functions_py._generate_iterated
              (functions_py.mkTimeFunction None (Some f) c) time_units
            = PySeries <$> core_function._generate_iterated
                             (core_function.mkTimeFunction None (Some f) c) time_units)
      as Hit.
    { unfold functions_py._generate_iterated, core_function._generate_iterated.
      cbn [functions_py.iterated functions_py.condition core_function.iterated
           core_function.condition attr default id].
      rewrite Had. destruct (call0 f) as [time_func |]; cbn [mbind result_bind]; [| done].
      destruct c as [c |]; [| done].
      by destruct (list_of_generator (core_function.yield_values time_func c time_units)). }
    unfold functions_py.generate, core_function.generate.
    cbn [functions_py.truth functions_py.iterated functions_py.vectorized
         functions_py.condition core_function.truth core_function.iterated
         core_function.vectorized core_function.condition].
    by destruct c.
  - intros time_func s Hcall Hser.
    unfold functions_py.generate, core_function.generate.
    cbn [functions_py.truth functions_py.iterated functions_py.vectorized
         functions_py.condition core_function.truth core_function.iterated
         core_function.vectorized core_function.condition].
    assert (functions_py._generate_vectorized
              (functions_py.mkTimeFunction (Some f) None c) time_units
            = PySeries <$> core_function._generate_vectorized
                             (core_function.mkTimeFunction (Some f) None c) time_units)
      as Hvec.
    { unfold functions_py._generate_vectorized, core_function._generate_vectorized.
      cbn [functions_py.vectorized functions_py.condition core_function.vectorized
           core_function.condition attr default id].
      rewrite Had, Hcall. cbn [mbind result_bind]. rewrite Hser.
      cbn [mbind result_bind core_function.label_values].
      destruct c as [c |]; [| done].
      destruct (call1 c (PySeries s)) as [mask |]; [| done].
      cbn [mbind result_bind functions_py.subscript]. done. }
    by destruct c.
Qed.

Lemma versions_agree_witness :
  functions_py.generate
    (functions_py.mkTimeFunction None (Some examples.make_step)
       (Some examples.below_3)) examples.time_points
  = PySeries <$> core_function.generate
                   (core_function.mkTimeFunction None (Some examples.make_step)
                      (Some examples.below_3)) examples.time_points
  ∧ functions_py.generate
      (functions_py.mkTimeFunction (Some examples.make_step) None
         (Some examples.below_3)) examples.time_points
    = PySeries <$> core_function.generate
                     (core_function.mkTimeFunction (Some examples.make_step) None
                        (Some examples.below_3)) examples.time_points.
Proof.
  destruct (versions_agree_on_function_generators examples.make_step
              (Some examples.below_3) examples.time_points eq_refl)
    as [Hiterated Hvectorized].
  split; [exact Hiterated |].
  apply (Hvectorized examples.step examples.time_points); reflexivity.
Defined.

(** ** Further properties of the series *)

Section series_registry.

Context {TimeTrack TrackArgs TrackResult : Type}.
Variable TimeTrack_init : series.TimeSeries TimeTrack → TrackArgs → result TimeTrack.
Variable TimeTrack_generate : TimeTrack → result TrackResult.
Variable TrackResult_values : TrackResult → list (Z * PyVal).

(** [add] under a name that is free, when the constructor of the track
    returns: the track is registered under the name, looking the name up
    gives it back, and the other names keep what they had. *)
Theorem add_then_getitem (self : series.TimeSeries TimeTrack) (name : string)
    (args : TrackArgs) (track : TimeTrack) :
  series.tracks self !! name = None →
  TimeTrack_init self args = Ok track →
  (series.add TimeTrack_init self name args).1 = Ok ()
  ∧ series.__getitem__ (series.add TimeTrack_init self name args).2 name = Ok track
  ∧ (∀ other, other ≠ name →
       series.__getitem__ (series.add TimeTrack_init self name args).2 other
       = series.__getitem__ self other)
  ∧ series.ts_index (series.add TimeTrack_init self name args).2 = series.ts_index self.
Proof.
  intros Hfree Hinit. unfold series.add.
  rewrite bool_decide_eq_false_2 by (rewrite Hfree; by intros [? ?]).
  rewrite Hinit. cbn [fst snd]. unfold series.__getitem__.
  cbn [series.tracks series.ts_index].
  split_and!; [done | by rewrite lookup_insert_eq | | done].
  intros other Hother. by rewrite lookup_insert_ne.
Qed.

(** Whatever [add] does (register, refuse a name that is taken, or pass on
    an exception of the constructor), a track that was registered stays
    registered under its name, unchanged. *)
Theorem add_keeps_registered_tracks (self : series.TimeSeries TimeTrack)
    (name registered : string) (args : TrackArgs) (track : TimeTrack) :
  series.tracks self !! registered = Some track →
  series.tracks (series.add TimeTrack_init self name args).2 !! registered
  = Some track.
Proof.
  intros Hreg. unfold series.add.
  case_bool_decide as Htaken; [done |].
  destruct (TimeTrack_init self args) as [new_track |]; [| done].
  cbn [snd series.tracks]. rewrite lookup_insert_ne; [done |].
  intros ->. apply Htaken. rewrite Hreg. by eexists.
Qed.

(** A series without tracks: looking up a name raises [KeyError] with the
    name, and [generate] raises the [ValueError] of [pd.concat] for an empty
    list; a series as [__init__] returns it is such a series. *)
Theorem series_without_tracks (self : series.TimeSeries TimeTrack)
    (item : string) :
  series.tracks self = ∅ →
  series.__getitem__ self item = Raise (KeyError item)
  ∧ series.generate TimeTrack_generate TrackResult_values self
    = Raise (ValueError "No objects to concatenate").
Proof.
  intros Hempty. split.
  - unfold series.__getitem__. by rewrite Hempty, lookup_empty.
  - unfold series.generate. rewrite Hempty, map_to_list_empty.
    cbn [series.generate_items mbind result_bind list_to_map foldr].
    by rewrite map_to_list_empty.
Qed.

(** The exception [generate_items] raises comes from one of the tracks. *)
Lemma generate_items_raises (items : list (string * TimeTrack)) :
  (∃ name track e, (name, track) ∈ items ∧ TimeTrack_generate track = Raise e) →
  ∃ name track e,
    (name, track) ∈ items
    ∧ TimeTrack_generate track = Raise e
    ∧ series.generate_items TimeTrack_generate items = Raise e.
Proof.
  induction items as [| [name track] items IH].
  - by intros (? & ? & ? & ?%elem_of_nil & _).
  - intros (name' & track' & e & Hin & He).
    cbn [series.generate_items].
    destruct (TimeTrack_generate track) as [r |] eqn:Hr.
    + destruct IH as (name'' & track'' & e'' & Hin'' & He'' & Hgen'').
      { apply elem_of_cons in Hin as [[= -> ->] | Hin]; [congruence |].
        by exists name', track', e. }
      exists name'', track'', e''. split_and!; [by right | done |].
      cbn [mbind result_bind]. by rewrite Hgen''.
    + exists name, track, e0. split_and!; [by left | done | done].
Qed.

(** When the [generate] of a track raises, so does the [generate] of the
    series, with the exception of a track that failed: there is no result
    for the tracks that did generate. *)
Theorem generate_fails_with_a_track (self : series.TimeSeries TimeTrack)
    (name : string) (track : TimeTrack) (e : exn) :
  series.tracks self !! name = Some track →
  TimeTrack_generate track = Raise e →
  ∃ name' track' e',
    series.tracks self !! name' = Some track'
    ∧ TimeTrack_generate track' = Raise e'
    ∧ series.generate TimeTrack_generate TrackResult_values self = Raise e'.
Proof.
  intros Hin He.
  destruct (generate_items_raises (map_to_list (series.tracks self)))
    as (name' & track' & e' & Hin' & He' & Hgen).
  { exists name, track, e. split; [| done]. by apply elem_of_map_to_list. }
  exists name', track', e'. split_and!; [by apply elem_of_map_to_list | done |].
  unfold series.generate. by rewrite Hgen.
Qed.

End series_registry.

Lemma add_then_getitem_witness :
  (series.add examples.held_track examples.two_tracks "C" examples.track_b).1 = Ok ()
  ∧ series.__getitem__
      (series.add examples.held_track examples.two_tracks "C" examples.track_b).2 "C"
    = Ok examples.track_b
  ∧ (∀ other, other ≠ "C" →
       series.__getitem__
         (series.add examples.held_track examples.two_tracks "C" examples.track_b).2
         other
       = series.__getitem__ examples.two_tracks other)
  ∧ series.ts_index
      (series.add examples.held_track examples.two_tracks "C" examples.track_b).2
    = series.ts_index examples.two_tracks.
Proof.
  apply (add_then_getitem examples.held_track examples.two_tracks "C"
           examples.track_b examples.track_b); reflexivity.
Defined.

Lemma add_keeps_registered_tracks_witness :
  series.tracks
    (series.add examples.held_track examples.two_tracks "A" examples.track_b).2 !! "B"
  = Some examples.track_b
  ∧ series.tracks
      (series.add examples.held_track examples.two_tracks "C" examples.track_a).2 !! "B"
    = Some examples.track_b.
Proof.
  split.
  - apply (add_keeps_registered_tracks examples.held_track examples.two_tracks
             "A" "B" examples.track_b examples.track_b). reflexivity.
  - apply (add_keeps_registered_tracks examples.held_track examples.two_tracks
             "C" "B" examples.track_a examples.track_b). reflexivity.
Defined.

Lemma series_without_tracks_witness :
  series.__getitem__ (series.__init__ (TimeTrack := list (Z * PyVal)) [0; 1]%Z "h") "A"
  = Raise (KeyError "A")
  ∧ series.generate examples.generate_held (fun r => r)
      (series.__init__ [0; 1]%Z "h")
    = Raise (ValueError "No objects to concatenate").
Proof.
  apply (series_without_tracks examples.generate_held (fun r => r)
           (series.__init__ [0; 1]%Z "h") "A").
  reflexivity.
Defined.

Lemma generate_fails_with_a_track_witness :
  ∃ name' track' e',
    series.tracks
      (series.mkTimeSeries [0; 1]%Z "h" (<["A" := examples.track_a]> {["E" := []]}))
      !! name' = Some track'
    ∧ examples.generate_unless_empty track' = Raise e'
    ∧ series.generate examples.generate_unless_empty (fun r => r)
        (series.mkTimeSeries [0; 1]%Z "h" (<["A" := examples.track_a]> {["E" := []]}))
      = Raise e'.
Proof.
  apply (generate_fails_with_a_track examples.generate_unless_empty (fun r => r)
           (series.mkTimeSeries [0; 1]%Z "h" (<["A" := examples.track_a]> {["E" := []]}))
           "E" [] examples.track_failure); reflexivity.
Defined.
